(** * AirtimeNigeria SDK: a shallow embedding of the client and its contract

    The development follows the TypeScript class [AirtimeNigeriaSDK]:

    - JavaScript strings are sequences of UTF-16 code units, numbers are
      rationals extended with [NaN] and the two infinities, and truthiness
      is [ToBoolean];
    - the regular expression of [isValidPhone] is kept as a syntax tree and
      run by a backtracking matcher in continuation-passing style, started
      at every index as [RegExp.prototype.test] does;
    - the asynchronous operations are terms of a small free monad whose only
      effect is a call to [makeRequest]; running a term against a network
      yields the list of requests issued together with the outcome. *)

From Stdlib Require Import List String Ascii Bool ZArith NArith Arith QArith Lia.
Import ListNotations.

Set Implicit Arguments.

Open Scope string_scope.
Open Scope list_scope.

(* ================================================================= *)
(** * JavaScript values *)

(** A UTF-16 code unit. *)
Definition code_unit := N.

(** A JavaScript string. *)
Definition jsstring := list code_unit.

(** A string literal of the source, as code units. *)
Definition js (s : string) : jsstring :=
  map N_of_ascii (list_ascii_of_string s).

Fixpoint jsstring_eqb (a b : jsstring) : bool :=
  match a, b with
  | [], [] => true
  | x :: a', y :: b' => N.eqb x y && jsstring_eqb a' b'
  | _, _ => false
  end.

(** [Array.prototype.includes] on an array of strings. *)
Definition includes (l : list jsstring) (x : jsstring) : bool :=
  existsb (jsstring_eqb x) l.

(** [String.prototype.startsWith(p)], from position 0. *)
Fixpoint startsWith (s p : jsstring) {struct p} : bool :=
  match p with
  | [] => true
  | c :: p' =>
      match s with
      | [] => false
      | d :: s' => N.eqb d c && startsWith s' p'
      end
  end.

(** [String.prototype.substring(n)] for a non-negative [n]: the code units
    from index [n] on, the empty string when [n] exceeds the length. *)
Definition substring (s : jsstring) (n : nat) : jsstring := skipn n s.

(** The class [\s]: WhiteSpace and LineTerminator of ECMAScript. *)
Definition is_whitespace (c : code_unit) : bool :=
  existsb (N.eqb c)
    [9; 10; 11; 12; 13; 32; 160; 5760; 8232; 8233; 8239; 8287; 12288; 65279]%N
  || (8192 <=? c)%N && (c <=? 8202)%N.

(** The class [\d]: the ten ASCII digits. *)
Definition is_digit (c : code_unit) : bool :=
  (48 <=? c)%N && (c <=? 57)%N.

(** [s.replace(/\s/g, "")]: every code unit of the class is dropped, the
    others are kept in order. *)
Definition replace_whitespace (s : jsstring) : jsstring :=
  filter (fun c => negb (is_whitespace c)) s.

(* ================================================================= *)
(** * Regular expressions *)

Module RegExp.

(** The fragment of the pattern syntax the source uses. *)
Inductive regex : Type :=
| AssertStart                                (* ^ *)
| AssertEnd                                  (* $ *)
| Char (c : code_unit)                       (* a literal character *)
| ClassOf (cs : list code_unit)              (* [abc] *)
| Digit                                      (* \d *)
| Empty                                      (* the empty pattern *)
| Seq (a b : regex)                          (* ab *)
| Alt (a b : regex)                          (* a|b *)
| Opt (a : regex)                            (* a? *)
| Repeat (n : nat) (a : regex).              (* a{n} *)

(** A continuation receives the end index and the rest of the input. *)
Definition cont := nat -> jsstring -> bool.

Definition one_char (p : code_unit -> bool) (s : jsstring) (i : nat)
           (k : cont) : bool :=
  match s with
  | [] => false
  | c :: s' => p c && k (S i) s'
  end.

(** The backtracking matcher: [m r i s k] tries [r] at index [i], where [s]
    is the input from [i] on, and hands every way of matching to [k] in
    priority order until one succeeds. *)
Fixpoint m (r : regex) (i : nat) (s : jsstring) (k : cont) : bool :=
  match r with
  | AssertStart => Nat.eqb i 0 && k i s
  | AssertEnd => match s with [] => k i s | _ :: _ => false end
  | Char c => one_char (N.eqb c) s i k
  | ClassOf cs => one_char (fun d => existsb (N.eqb d) cs) s i k
  | Digit => one_char is_digit s i k
  | Empty => k i s
  | Seq a b => m a i s (fun i' s' => m b i' s' k)
  | Alt a b => m a i s k || m b i s k
  | Opt a => m a i s k || k i s
  | Repeat n a =>
      (fix rep (n : nat) (i : nat) (s : jsstring) {struct n} : bool :=
         match n with
         | O => k i s
         | S n' => m a i s (rep n')
         end) n i s
  end.

(** [RegExp.prototype.test] without the global or sticky flag: a match is
    tried at index 0, then 1, and so on up to the length of the input. *)
Definition test (r : regex) (s : jsstring) : bool :=
  existsb (fun i => m r i (skipn i s) (fun _ _ => true))
          (seq 0 (S (List.length s))).

(** A literal word as a sequence of characters. *)
Fixpoint word (w : jsstring) : regex :=
  match w with
  | [] => Empty
  | c :: w' => Seq (Char c) (word w')
  end.

End RegExp.

Import RegExp.

(* ================================================================= *)
(** * Phone utilities *)

(** [/^(\+234|234|0)?[789][01]\d{8}$/] *)
Definition phoneRegex : regex :=
  Seq AssertStart
   (Seq (Opt (Alt (word (js "+234")) (Alt (word (js "234")) (word (js "0")))))
    (Seq (ClassOf (js "789"))
     (Seq (ClassOf (js "01"))
      (Seq (Repeat 8 Digit) AssertEnd)))).

Definition isValidPhone (phone : jsstring) : bool :=
  test phoneRegex (replace_whitespace phone).

Definition formatPhone (phone : jsstring) : jsstring :=
  let cleaned := replace_whitespace phone in
  if startsWith cleaned (js "+234") then substring cleaned 4
  else if startsWith cleaned (js "234") then substring cleaned 3
  else if startsWith cleaned (js "0") then substring cleaned 1
  else cleaned.

(* ================================================================= *)
(** * Numbers, truthiness and objects *)

(** A JavaScript number: a finite value, [NaN] or an infinity.  The finite
    doubles are rationals, and the client never computes with a number: it
    compares numbers, tests their truthiness and passes them on, all of
    which is exact on rationals. *)
Inductive number : Type :=
| NaN
| NegInfinity
| Finite (q : Q)
| Infinity.

(** [x < y] on rationals, as a boolean. *)
Definition Qlt_bool (x y : Q) : bool :=
  (Qnum x * Zpos (Qden y) <? Qnum y * Zpos (Qden x))%Z.

(** [a < b]; every comparison with [NaN] is false. *)
Definition number_lt (a b : number) : bool :=
  match a, b with
  | NaN, _ | _, NaN => false
  | NegInfinity, NegInfinity => false
  | NegInfinity, _ => true
  | _, NegInfinity => false
  | Infinity, _ => false
  | Finite _, Infinity => true
  | Finite x, Finite y => Qlt_bool x y
  end.

(** [a > b] *)
Definition number_gt (a b : number) : bool := number_lt b a.

(** [ToBoolean]: what [!x], [x && y] and [x || y] test. *)
Class ToBoolean (A : Type) := truthy : A -> bool.

#[export] Instance ToBoolean_string : ToBoolean jsstring :=
  fun s => match s with [] => false | _ :: _ => true end.

#[export] Instance ToBoolean_number : ToBoolean number :=
  fun n => match n with
           | NaN => false
           | Finite q => negb (Qeq_bool q 0)
           | NegInfinity | Infinity => true
           end.

(** An optional property: [None] is [undefined], which is falsy. *)
#[export] Instance ToBoolean_option {A} `{ToBoolean A} : ToBoolean (option A) :=
  fun o => match o with None => false | Some a => truthy a end.

(** The values the client puts into a request body. *)
Inductive json : Type :=
| JUndefined
| JString (s : jsstring)
| JNumber (n : number).

Definition of_string (o : option jsstring) : json :=
  match o with None => JUndefined | Some s => JString s end.

Definition of_number (o : option number) : json :=
  match o with None => JUndefined | Some n => JNumber n end.

(** An object literal: its own properties in insertion order. *)
Definition object := list (string * json).

(** [o[k]], [None] when [o] has no own property [k]. *)
Fixpoint get (o : object) (k : string) : option json :=
  match o with
  | [] => None
  | (k', v) :: o' => if String.eqb k k' then Some v else get o' k
  end.

(** [...(c && { ... })]: when [c] is falsy the operand of the spread is a
    falsy primitive ([undefined], the empty string, [0], [NaN]) and adds no
    property. *)
Definition spread_if (c : bool) (o : object) : object :=
  if c then o else [].

(* ================================================================= *)
(** * Asynchronous operations *)

Inductive Error : Type := mkError (message : string).

(** The double quote character, as a one-character string. *)
Definition dquote : string := String (ascii_of_nat 34) EmptyString.

Module APIResponse.
Record t (T : Type) : Type := mk { statusCode : Z; data : T }.
Arguments mk {T}.
End APIResponse.

(** One call of [makeRequest]. *)
Record call : Type := mkCall {
  endpoint : string;
  method : string;
  body : option object
}.

(** An [async] method whose requests are answered with a [T]: it returns,
    throws, or awaits [makeRequest] and goes on with the response. *)
Inductive prog (T A : Type) : Type :=
| Return (a : A)
| Throw (e : Error)
| makeRequest (endpoint method : string) (data : option object)
              (k : APIResponse.t T -> prog T A).

Arguments Return {T A}.
Arguments Throw {T A}.
Arguments makeRequest {T A}.

Fixpoint bind {T A B} (p : prog T A) (f : A -> prog T B) : prog T B :=
  match p with
  | Return a => f a
  | Throw e => Throw e
  | makeRequest ep me d k => makeRequest ep me d (fun r => bind (k r) f)
  end.

Notation "'await' x <- p ; q" := (bind p (fun x => q))
  (at level 61, x name, p at next level, right associativity).

(** The network: a request is answered by a response, or the promise is
    rejected (connection failure, timeout, unparsable body). *)
Definition network (T : Type) : Type :=
  string -> string -> option object -> Error + APIResponse.t T.

Inductive outcome (A : Type) : Type :=
| Resolved (a : A)
| Rejected (e : Error).

Arguments Resolved {A}.
Arguments Rejected {A}.

(** Runs an operation against a network: the calls of [makeRequest] in the
    order they were made, and how the promise settles. *)
Fixpoint run {T A} (net : network T) (p : prog T A) : list call * outcome A :=
  match p with
  | Return a => ([], Resolved a)
  | Throw e => ([], Rejected e)
  | makeRequest ep me d k =>
      match net ep me d with
      | inl e => ([mkCall ep me d], Rejected e)
      | inr r => let '(calls, o) := run net (k r) in
                 (mkCall ep me d :: calls, o)
      end
  end.

Definition requests {T A} (net : network T) (p : prog T A) : list call :=
  fst (run net p).


(* ================================================================= *)
(** * Parameter and response types *)

Module AirtimePurchaseParams.
(** The interface declares the first four properties as required; they
    are optional here because the method checks at run time that they are
    present. *)
Record t : Type := mk {
  networkOperator : option jsstring;
  phone : option jsstring;
  amount : option number;
  maxAmount : option jsstring;
  callbackUrl : option jsstring;
  customerReference : option jsstring
}.
End AirtimePurchaseParams.

Module DataPurchaseParams.
Record t : Type := mk {
  phone : option jsstring;
  packageCode : option jsstring;
  planId : option number;
  maxAmount : option jsstring;
  callbackUrl : option jsstring;
  customerReference : option jsstring
}.
End DataPurchaseParams.

Module DataWalletVendParams.
Record t : Type := mk {
  phone : option jsstring;
  packageCode : option jsstring;
  planId : option number;
  processType : option jsstring;
  callbackUrl : option jsstring;
  customerReference : option jsstring
}.
End DataWalletVendParams.

Module AirtimeResponse.
Record details_t : Type := mkDetails {
  reference : jsstring;
  customer_reference : option jsstring;
  package : jsstring;
  recipients : jsstring;
  number_of_recipients : number;
  airtime_amount : number;
  unit_cost : number;
  total_cost : number;
  currency : jsstring
}.
Record t : Type := mk {
  success : bool;
  status : jsstring;
  message : jsstring;
  details : option details_t
}.
End AirtimeResponse.

Module DataResponse.
Record details_t : Type := mkDetails {
  reference : jsstring;
  customer_reference : option jsstring;
  package : jsstring;
  recipients : jsstring;
  number_of_recipients : number;
  unit_cost : number;
  total_cost : number;
  currency : jsstring;
  gateway_response : option jsstring;
  delivery_status : option jsstring;
  order_status : option jsstring
}.
Record t : Type := mk {
  success : bool;
  status : jsstring;
  message : jsstring;
  details : option details_t
}.
End DataResponse.

Module DataPlan.
Record t : Type := mk {
  network_operator : jsstring;
  plan_summary : jsstring;
  package_code : jsstring;
  plan_id : number;
  validity : jsstring;
  regular_price : number;
  agent_price : number;
  dealer_price : number;
  currency : jsstring
}.

(** [plan[key]] for a computed key that ends in [_price]: of the declared
    properties only the three price tiers can be named by such a key, any
    other key reads [undefined]. *)
Definition price_property (plan : t) (key : jsstring) : option number :=
  if jsstring_eqb key (js "regular_price") then Some (regular_price plan)
  else if jsstring_eqb key (js "agent_price") then Some (agent_price plan)
  else if jsstring_eqb key (js "dealer_price") then Some (dealer_price plan)
  else None.
End DataPlan.

Module DataPlansResponse.
(** The interface declares [data] as required; it is optional here because
    the methods that read it check that it is there. *)
Record t : Type := mk {
  success : bool;
  status : jsstring;
  data : option (list DataPlan.t)
}.
End DataPlansResponse.

#[export] Instance ToBoolean_bool : ToBoolean bool := fun b => b.

(** Objects and arrays are truthy. *)
#[export] Instance ToBoolean_DataPlan : ToBoolean DataPlan.t := fun _ => true.
#[export] Instance ToBoolean_DataPlans : ToBoolean (list DataPlan.t) :=
  fun _ => true.

(** [["mtn", "airtel", "glo", "9mobile"].includes(x)] and the like, for a
    property that may be [undefined]. *)
Definition includes_opt (l : list jsstring) (o : option jsstring) : bool :=
  match o with None => false | Some x => includes l x end.

(** [ToNumber] of an optional number: [undefined] becomes [NaN]. *)
Definition to_number (o : option number) : number :=
  match o with None => NaN | Some n => n end.

(** [x || null] *)
Definition or_null {A} `{ToBoolean A} (o : option A) : option A :=
  match o with
  | Some a => if truthy a then Some a else None
  | None => None
  end.

Definition operators : list jsstring :=
  [js "mtn"; js "airtel"; js "glo"; js "9mobile"].

Definition processTypes : list jsstring := [js "queue"; js "instant"].

(* ================================================================= *)
(** * Domain operations *)

Definition purchaseAirtime (params : AirtimePurchaseParams.t)
  : prog AirtimeResponse.t AirtimeResponse.t :=
  let '(AirtimePurchaseParams.mk networkOperator phone amount maxAmount
          callbackUrl customerReference) := params in
  if negb (truthy networkOperator) || negb (truthy phone)
     || negb (truthy amount) || negb (truthy maxAmount)
  then Throw (mkError
         "networkOperator, phone, amount, and maxAmount are required")
  else if negb (includes_opt operators networkOperator)
  then Throw (mkError
         "Invalid network operator. Must be one of: mtn, airtel, glo, 9mobile")
  else if number_lt (to_number amount) (Finite 50)
          || number_gt (to_number amount) (Finite 50000)
  then Throw (mkError "Amount must be between 50 and 50000 NGN")
  else
    let requestData : object :=
      [("network_operator", of_string networkOperator);
       ("phone", of_string phone);
       ("amount", of_number amount);
       ("max_amount", of_string maxAmount)]
      ++ spread_if (truthy callbackUrl)
           [("callback_url", of_string callbackUrl)]
      ++ spread_if (truthy customerReference)
           [("customer_reference", of_string customerReference)] in
    await response <- makeRequest "/airtime" "POST" (Some requestData) Return;
    Return (APIResponse.data response).

Definition purchaseData (params : DataPurchaseParams.t)
  : prog DataResponse.t DataResponse.t :=
  let '(DataPurchaseParams.mk phone packageCode planId maxAmount
          callbackUrl customerReference) := params in
  if negb (truthy phone)
  then Throw (mkError "phone is required")
  else if negb (truthy packageCode) && negb (truthy planId)
  then Throw (mkError "Either packageCode or planId is required")
  else
    let requestData : object :=
      [("phone", of_string phone)]
      ++ spread_if (truthy packageCode)
           [("package_code", of_string packageCode)]
      ++ spread_if (truthy planId && negb (truthy packageCode))
           [("plan_id", of_number planId)]
      ++ spread_if (truthy maxAmount)
           [("max_amount", of_string maxAmount)]
      ++ spread_if (truthy callbackUrl)
           [("callback_url", of_string callbackUrl)]
      ++ spread_if (truthy customerReference)
           [("customer_reference", of_string customerReference)] in
    await response <- makeRequest "/data" "POST" (Some requestData) Return;
    Return (APIResponse.data response).

Definition vendDataFromWallet (params : DataWalletVendParams.t)
  : prog DataResponse.t DataResponse.t :=
  let '(DataWalletVendParams.mk phone packageCode planId processType
          callbackUrl customerReference) := params in
  if negb (truthy phone)
  then Throw (mkError "phone is required")
  else if negb (truthy packageCode) && negb (truthy planId)
  then Throw (mkError "Either packageCode or planId is required")
  else if truthy processType && negb (includes_opt processTypes processType)
  then Throw (mkError
         ("processType must be either " ++ dquote ++ "queue" ++ dquote
          ++ " or " ++ dquote ++ "instant" ++ dquote)%string)
  else
    let requestData : object :=
      [("phone", of_string phone)]
      ++ spread_if (truthy packageCode)
           [("package_code", of_string packageCode)]
      ++ spread_if (truthy planId && negb (truthy packageCode))
           [("plan_id", of_number planId)]
      ++ spread_if (truthy processType)
           [("process_type", of_string processType)]
      ++ spread_if (truthy callbackUrl)
           [("callback_url", of_string callbackUrl)]
      ++ spread_if (truthy customerReference)
           [("customer_reference", of_string customerReference)] in
    await response <- makeRequest "/data/wallet" "POST" (Some requestData) Return;
    Return (APIResponse.data response).

Definition getDataPlans : prog DataPlansResponse.t DataPlansResponse.t :=
  await response <- makeRequest "/data/plans" "GET" None Return;
  Return (APIResponse.data response).

Definition getDataPlansByOperator (networkOperator : jsstring)
  : prog DataPlansResponse.t (list DataPlan.t) :=
  if negb (includes operators networkOperator)
  then Throw (mkError
         "Invalid network operator. Must be one of: mtn, airtel, glo, 9mobile")
  else
    await response <- getDataPlans;
    if truthy (DataPlansResponse.success response)
       && truthy (DataPlansResponse.data response)
    then match DataPlansResponse.data response with
         | Some data =>
             Return (filter
               (fun plan =>
                  jsstring_eqb (DataPlan.network_operator plan) networkOperator)
               data)
         | None => Return []
         end
    else Return [].

Definition findDataPlan (packageCode : jsstring)
  : prog DataPlansResponse.t (option DataPlan.t) :=
  await response <- getDataPlans;
  if truthy (DataPlansResponse.success response)
     && truthy (DataPlansResponse.data response)
  then match DataPlansResponse.data response with
       | Some data =>
           Return (or_null
             (find (fun plan =>
                      jsstring_eqb (DataPlan.package_code plan) packageCode)
                   data))
       | None => Return None
       end
  else Return None.

(** [priceType] is [None] when the argument is omitted; the default
    parameter value then applies. *)
Definition getDataPlanPrice (packageCode : jsstring)
           (priceType : option jsstring)
  : prog DataPlansResponse.t (option number) :=
  let priceType := match priceType with
                   | None => js "regular"
                   | Some t => t
                   end in
  await plan <- findDataPlan packageCode;
  match plan with
  | None => Return None
  | Some plan =>
      let priceKey := priceType ++ js "_price" in
      Return (or_null (DataPlan.price_property plan priceKey))
  end.

(* ================================================================= *)
(** * The contract, in the words of the specification *)

(** A property of the parameter object was supplied by the caller. *)
Definition supplied {A} (o : option A) : bool :=
  match o with Some _ => true | None => false end.

(** The messages of the validation errors. *)
Definition validation_messages : list string :=
  ["networkOperator, phone, amount, and maxAmount are required";
   "Invalid network operator. Must be one of: mtn, airtel, glo, 9mobile";
   "Amount must be between 50 and 50000 NGN";
   "phone is required";
   "Either packageCode or planId is required";
   ("processType must be either " ++ dquote ++ "queue" ++ dquote
    ++ " or " ++ dquote ++ "instant" ++ dquote)%string].

(** The operation throws the error [msg] before any request: whatever the
    network, [makeRequest] is not called and the promise is rejected. *)
Definition throws {T A} (p : prog T A) (msg : string) : Prop :=
  p = Throw (mkError msg)
  /\ forall net : network T, run net p = ([], Rejected (mkError msg)).

(** The operation fails validation: it throws one of the validation
    errors before any request. *)
Definition rejects {T A} (p : prog T A) : Prop :=
  exists msg, In msg validation_messages /\ throws p msg.

(** The rule on the plan identifier of a data purchase, for an operation
    [p] called with these [packageCode] and [planId]. *)
Definition plan_identifier_rule {T A} (packageCode : option jsstring)
           (planId : option number) (p : prog T A) : Prop :=
  (packageCode = None -> planId = None -> rejects p)
  /\ (forall net c b,
        In c (requests net p) -> body c = Some b ->
        (forall code, packageCode = Some code -> code <> [] ->
           get b "package_code" = Some (JString code)
           /\ get b "plan_id" = None)
        /\ (forall n, truthy packageCode = false -> planId = Some n ->
              get b "plan_id" = Some (JNumber n)
              /\ get b "package_code" = None)).

(** A zero [planId] and an empty [packageCode] count as absent, for an
    operation [p] called with these [phone], [packageCode] and [planId]. *)
Definition falsy_identifier_rule {T A} (phone packageCode : option jsstring)
           (planId : option number) (p : prog T A) : Prop :=
  (packageCode = None -> planId = Some (Finite 0) ->
   exists msg, throws p msg /\ In msg validation_messages
     /\ (truthy phone = true ->
         msg = "Either packageCode or planId is required"))
  /\ (forall net c b,
        In c (requests net p) -> body c = Some b ->
        get b "plan_id" <> Some (JNumber (Finite 0))
        /\ get b "package_code" <> Some (JString [])).

(** The body of a request reflects the plan identifier as follows. *)
Definition identifier_fields (packageCode : option jsstring)
           (planId : option number) (b : object) : Prop :=
  truthy packageCode || truthy planId = true
  /\ get b "package_code"
     = (if truthy packageCode then Some (of_string packageCode) else None)
  /\ get b "plan_id"
     = (if truthy planId && negb (truthy packageCode)
        then Some (of_number planId) else None).

(** The price tiers, and the table from a tier to the property that holds
    its price. *)
Inductive PriceTier : Type := regular | agent | dealer.

Definition tier_name (t : PriceTier) : jsstring :=
  match t with
  | regular => js "regular"
  | agent => js "agent"
  | dealer => js "dealer"
  end.

Definition tier_price (t : PriceTier) (plan : DataPlan.t) : number :=
  match t with
  | regular => DataPlan.regular_price plan
  | agent => DataPlan.agent_price plan
  | dealer => DataPlan.dealer_price plan
  end.

(** The one request of the catalog operations. *)
Definition plans_call : call := mkCall "/data/plans" "GET" None.

(** The network answers the catalog request with the envelope [response]. *)
Definition fetches (net : network DataPlansResponse.t)
           (response : DataPlansResponse.t) : Prop :=
  exists statusCode,
    net "/data/plans" "GET" None = inr (APIResponse.mk statusCode response).

(** The plan list of an envelope that the operations accept: the success
    flag is set and the list is there. *)
Definition catalog (response : DataPlansResponse.t) : option (list DataPlan.t) :=
  if DataPlansResponse.success response
  then DataPlansResponse.data response
  else None.

(** [plan] is the first entry of [plans] with the package code [code]. *)
Definition first_with_code (code : jsstring) (plans : list DataPlan.t)
           (plan : DataPlan.t) : Prop :=
  exists before after,
    plans = before ++ plan :: after
    /\ DataPlan.package_code plan = code
    /\ Forall (fun q => DataPlan.package_code q <> code) before.

(** The pattern of a local number: a digit among 7, 8, 9, then a digit
    among 0, 1, then eight digits. *)
Definition is_local_number (s : jsstring) : bool :=
  match s with
  | d1 :: d2 :: rest =>
      existsb (N.eqb d1) (js "789") && existsb (N.eqb d2) (js "01")
      && Nat.eqb (List.length rest) 8 && forallb is_digit rest
  | _ => false
  end.

(** The pattern of a phone number: an optional prefix [+234], [234] or [0],
    then a local number, and nothing else. *)
Definition phone_pattern (s : jsstring) : Prop :=
  exists prefix d1 d2 rest,
    s = prefix ++ d1 :: d2 :: rest
    /\ In prefix [js "+234"; js "234"; js "0"; []]
    /\ In d1 (js "789") /\ In d2 (js "01")
    /\ List.length rest = 8%nat
    /\ Forall (fun c => is_digit c = true) rest.

(** [remove_prefix p s] is what follows [p] in [s], when [s] begins with
    [p]. *)
Fixpoint remove_prefix (p s : jsstring) {struct p} : option jsstring :=
  match p, s with
  | [], _ => Some s
  | c :: p', d :: s' => if N.eqb c d then remove_prefix p' s' else None
  | _ :: _, [] => None
  end.

(** Removes the first prefix of the list that [s] begins with, if any. *)
Fixpoint drop_first_prefix (prefixes : list jsstring) (s : jsstring)
  : jsstring :=
  match prefixes with
  | [] => s
  | p :: prefixes' =>
      match remove_prefix p s with
      | Some rest => rest
      | None => drop_first_prefix prefixes' s
      end
  end.

(* ================================================================= *)
(** * Sample inputs *)

(** A well-formed airtime purchase. *)
Definition airtime_params (op : string) (amt : Q) : AirtimePurchaseParams.t :=
  AirtimePurchaseParams.mk (Some (js op)) (Some (js "08012345678"))
    (Some (Finite amt)) (Some (js "100")) None None.

(** Well-formed data purchases, up to the plan identifier. *)
Definition data_params (packageCode : option jsstring)
           (planId : option number) : DataPurchaseParams.t :=
  DataPurchaseParams.mk (Some (js "08012345678")) packageCode planId
    None None None.

Definition vend_params (packageCode : option jsstring)
           (planId : option number) (processType : option jsstring)
  : DataWalletVendParams.t :=
  DataWalletVendParams.mk (Some (js "08012345678")) packageCode planId
    processType None None.

(** A network on which every request times out. *)
Definition offline (T : Type) : network T :=
  fun _ _ _ => inl (mkError "Request timeout").

(** A sample catalog. *)
Definition plan_mtn_1gb : DataPlan.t :=
  DataPlan.mk (js "mtn") (js "1GB 30 days") (js "MTN-1GB") (Finite 1)
    (js "30 days") (Finite 300) (Finite 290) (Finite 280) (js "NGN").

Definition plan_glo_free : DataPlan.t :=
  DataPlan.mk (js "glo") (js "Free trial") (js "GLO-FREE") (Finite 2)
    (js "1 day") (Finite 0) (Finite 0) (Finite 0) (js "NGN").

Definition plan_mtn_2gb : DataPlan.t :=
  DataPlan.mk (js "mtn") (js "2GB 30 days") (js "MTN-2GB") (Finite 3)
    (js "30 days") (Finite 550) (Finite 540) (Finite 530) (js "NGN").

Definition sample_response : DataPlansResponse.t :=
  DataPlansResponse.mk true (js "success")
    (Some [plan_mtn_1gb; plan_glo_free; plan_mtn_2gb]).

(** A network that answers every request with the sample catalog. *)
Definition sample_network : network DataPlansResponse.t :=
  fun _ _ _ => inr (APIResponse.mk 200%Z sample_response).

(* ================================================================= *)
(** * The rest of the class: construction, balance, transport *)

Module AirtimeNigeriaOptions.
Record t : Type := mk {
  baseURL : option jsstring;
  timeout : option number
}.
End AirtimeNigeriaOptions.

Module WalletBalance.
Record t : Type := mk { balance : number; currency : jsstring }.
End WalletBalance.

Module WalletBalanceResponse.
Record t : Type := mk {
  success : bool;
  status : jsstring;
  universal_wallet : WalletBalance.t;
  sms_wallet : WalletBalance.t;
  mtn_data_wallet : WalletBalance.t;
  airtel_eds_wallet : WalletBalance.t;
  glo_cg_wallet : WalletBalance.t
}.
End WalletBalanceResponse.

(** The private properties of an instance. *)
Module Client.
Record t : Type := mk {
  apiToken : jsstring;
  baseURL : jsstring;
  timeout : number
}.
End Client.

(** [x || d] *)
Definition or_default {A} `{ToBoolean A} (o : option A) (d : A) : A :=
  match o with
  | Some a => if truthy a then a else d
  | None => d
  end.

Definition defaultBaseURL : jsstring :=
  js "https://www.airtimenigeria.com/api/v1".

(** [new AirtimeNigeriaSDK(apiToken, options)]; [options] is [None] when the
    argument is omitted and then defaults to the empty object. *)
Definition constructor (apiToken : option jsstring)
           (options : option AirtimeNigeriaOptions.t) : Error + Client.t :=
  let options := match options with
                 | Some o => o
                 | None => AirtimeNigeriaOptions.mk None None
                 end in
  match apiToken with
  | Some token =>
      if negb (truthy token)
      then inl (mkError "API token is required")
      else inr (Client.mk token
                  (or_default (AirtimeNigeriaOptions.baseURL options)
                              defaultBaseURL)
                  (or_default (AirtimeNigeriaOptions.timeout options)
                              (Finite 30000)))
  | None => inl (mkError "API token is required")
  end.

Definition getWalletBalance
  : prog WalletBalanceResponse.t WalletBalanceResponse.t :=
  await response <- makeRequest "/balance" "GET" None Return;
  Return (APIResponse.data response).

(** ** Inside makeRequest: the request that is written *)

(** The properties of the resolved [URL] that makeRequest reads. *)
Module URL.
Record t : Type := mk {
  protocol : jsstring;
  hostname : jsstring;
  port : jsstring;
  pathname : jsstring;
  search : jsstring
}.
End URL.

(** The options handed to [client.request]. *)
Module RequestOptions.
Record t : Type := mk {
  hostname : jsstring;
  port : json;
  path : jsstring;
  method : string;
  headers : object;
  timeout : number
}.
End RequestOptions.

Definition is_high_surrogate (c : code_unit) : bool :=
  (55296 <=? c)%N && (c <=? 56319)%N.

Definition is_low_surrogate (c : code_unit) : bool :=
  (56320 <=? c)%N && (c <=? 57343)%N.

(** [Buffer.byteLength(s)]: the length of the UTF-8 encoding of [s].  A
    surrogate pair takes four bytes, a lone surrogate is encoded as U+FFFD
    and takes three. *)
Fixpoint byteLength (s : jsstring) : N :=
  match s with
  | [] => 0
  | c :: s' =>
      if (c <? 128)%N then 1 + byteLength s'
      else if (c <? 2048)%N then 2 + byteLength s'
      else if is_high_surrogate c
      then match s' with
           | d :: s'' =>
               if is_low_surrogate d then 4 + byteLength s''
               else 3 + byteLength s'
           | [] => 3
           end
      else 3 + byteLength s'
  end%N.

(** What makeRequest hands to the HTTP client: which client, the options,
    and the body written with [req.write], if any. *)
Record outgoing : Type := mkOutgoing {
  isHttps : bool;
  options : RequestOptions.t;
  written : option jsstring
}.

(** The first half of makeRequest, up to [req.end()].  [url] is the result
    of [new URL(endpoint, this.baseURL)] and [stringify] is
    [JSON.stringify]; [data] is [None] for [null]. *)
Definition build_request (stringify : object -> jsstring)
           (this : Client.t) (url : URL.t) (method : string)
           (data : option object) : outgoing :=
  let isHttps := jsstring_eqb (URL.protocol url) (js "https:") in
  let postData := match data with
                  | Some o => Some (stringify o)
                  | None => None
                  end in
  let options :=
    RequestOptions.mk
      (URL.hostname url)
      (if truthy (URL.port url) then JString (URL.port url)
       else if isHttps then JNumber (Finite 443) else JNumber (Finite 80))
      (URL.pathname url ++ URL.search url)
      method
      ([("Authorization", JString (js "Bearer " ++ Client.apiToken this));
        ("Accept", JString (js "application/json"));
        ("Content-Type", JString (js "application/json"))]
       ++ spread_if (truthy postData)
            [("Content-Length",
              JNumber (Finite (inject_Z (Z.of_N
                (byteLength (match postData with
                             | Some s => s
                             | None => []
                             end))))))])
      (Client.timeout this) in
  mkOutgoing isHttps options
    (if truthy postData then postData else None).

(** ** Inside makeRequest: how the promise settles *)

(** What the HTTP client reports: the response arrives (with its status
    code, if it has one), a chunk of the body arrives, the body ends, the
    request fails, the request times out. *)
Inductive event : Type :=
| Response (statusCode : option Z)
| Data (chunk : jsstring)
| End_
| RequestError (message : string)
| RequestTimeout.

#[export] Instance ToBoolean_Z : ToBoolean Z := fun z => negb (z =? 0)%Z.

(** The state the handlers of one call share: the response whose handlers
    are registered and the text received so far, and the promise. *)
Record exchange (T : Type) : Type := mkExchange {
  response : option (option Z * jsstring);
  promise : option (outcome (APIResponse.t T))
}.

Arguments mkExchange {T}.

(** [resolve] and [reject] of a promise: only the first call settles it. *)
Definition settle_with {T} (o : outcome (APIResponse.t T))
           (x : exchange T) : exchange T :=
  match promise x with
  | Some _ => x
  | None => mkExchange (response x) (Some o)
  end.

(** One event, as the handlers of makeRequest treat it.  [parse] is
    [JSON.parse]: the value, or the message of the error it throws. *)
Definition handle {T} (parse : jsstring -> string + T)
           (x : exchange T) (ev : event) : exchange T :=
  match ev with
  | Response statusCode => mkExchange (Some (statusCode, [])) (promise x)
  | Data chunk =>
      match response x with
      | Some (statusCode, responseData) =>
          mkExchange (Some (statusCode, responseData ++ chunk)) (promise x)
      | None => x
      end
  | End_ =>
      match response x with
      | Some (statusCode, responseData) =>
          match parse responseData with
          | inr parsedData =>
              settle_with
                (Resolved (APIResponse.mk (or_default statusCode 200%Z)
                                          parsedData)) x
          | inl errorMessage =>
              settle_with
                (Rejected (mkError
                   ("Failed to parse response: " ++ errorMessage)%string)) x
          end
      | None => x
      end
  | RequestError message =>
      settle_with
        (Rejected (mkError ("Request failed: " ++ message)%string)) x
  | RequestTimeout =>
      settle_with (Rejected (mkError "Request timeout")) x
  end.

(** The exchange after a sequence of events. *)
Definition exchange_after {T} (parse : jsstring -> string + T)
           (events : list event) : exchange T :=
  fold_left (handle parse) events (mkExchange None None).

(** How the promise of makeRequest stands after these events: [None] while
    it is pending. *)
Definition settles {T} (parse : jsstring -> string + T)
           (events : list event) : option (outcome (APIResponse.t T)) :=
  promise (exchange_after parse events).

(* ================================================================= *)
(** * A caller: purchaseAirtimeWithValidation *)

(** [token] is the value of the environment variable, [times_1_1] stands
    for [(amount * 1.1).toString()] and [now] for the digits of
    [Date.now()].  The catch block logs the error and throws it again; the
    console is not part of the model. *)
Definition purchaseAirtimeWithValidation
           (token : option jsstring) (times_1_1 : number -> jsstring)
           (now : jsstring)
           (networkOperator phone : jsstring) (amount : number)
  : prog AirtimeResponse.t AirtimeResponse.t :=
  match constructor token None with
  | inl e => Throw e
  | inr sdk =>
      if negb (isValidPhone phone)
      then Throw (mkError "Invalid phone number format")
      else if number_lt amount (Finite 50)
              || number_gt amount (Finite 50000)
      then Throw (mkError "Amount must be between 50 and 50000 NGN")
      else
        let formattedPhone := formatPhone phone in
        await result <-
          purchaseAirtime
            (AirtimePurchaseParams.mk (Some networkOperator)
               (Some formattedPhone) (Some amount)
               (Some (times_1_1 amount)) None
               (Some (js "purchase-" ++ now)));
        Return result
  end.

(* ================================================================= *)
(** * Vocabulary for the further properties *)

(** An optional string parameter shows in the body under [key] exactly when
    it is a non-empty string. *)
Definition optional_field (b : object) (key : string)
           (value : option jsstring) : Prop :=
  get b key = if truthy value then Some (of_string value) else None.

(** The names of the properties of an object, in order. *)
Definition keys (o : object) : list string := map fst o.

(** Whatever the network, [p] calls makeRequest at most once, and then on
    [ep] with the method [me], with a body exactly when [with_body]. *)
Definition one_request_at_most {T A} (p : prog T A) (ep me : string)
           (with_body : bool) : Prop :=
  forall (net : network T) (c : call),
    In c (requests net p) ->
    requests net p = [c] /\ endpoint c = ep /\ method c = me
    /\ supplied (body c) = with_body.

(** [p] either throws before any request or makes the one request [c] and
    hands on what the transport gives: the [data] of the response, whatever
    its status code, or the error of the transport as it is. *)
Definition relays {T} (p : prog T T) : Prop :=
  (exists msg, throws p msg)
  \/ exists c, forall net : network T,
       run net p
       = ([c],
          match net (endpoint c) (method c) (body c) with
          | inl e => Rejected e
          | inr r => Resolved (APIResponse.data r)
          end).

(** The amount of an airtime purchase is in range. *)
Definition amount_in_range (amount : option number) : Prop :=
  exists q, amount = Some (Finite q) /\ (50 <= q)%Q /\ (q <= 50000)%Q.

(** A non-empty string was supplied. *)
Definition non_empty (o : option jsstring) : Prop :=
  exists s, o = Some s /\ s <> [].

(** The parameters of an airtime purchase pass validation. *)
Definition airtime_valid (params : AirtimePurchaseParams.t) : Prop :=
  (exists op, AirtimePurchaseParams.networkOperator params = Some op
              /\ In op operators)
  /\ non_empty (AirtimePurchaseParams.phone params)
  /\ amount_in_range (AirtimePurchaseParams.amount params)
  /\ non_empty (AirtimePurchaseParams.maxAmount params).

(** The events that do not settle the promise by themselves: the arrival
    of the response and of a chunk of its body. *)
Definition is_progress (ev : event) : bool :=
  match ev with
  | Response _ | Data _ => true
  | End_ | RequestError _ | RequestTimeout => false
  end.

(** A serializer for the examples: every object becomes [{}]. *)
Definition stringify_empty (o : object) : jsstring := js "{}".

(** A parser for the examples: the text [{}] is accepted and stands for
    the number of characters read, everything else is a syntax error. *)
Definition parse_braces (s : jsstring) : string + nat :=
  if jsstring_eqb s (js "{}") then inr (List.length s)
  else inl "Unexpected end of JSON input".

(** A data purchase names its phone and a plan: a non-empty package code,
    or a plan id that is neither 0 nor NaN. *)
Definition data_valid (phone packageCode : option jsstring)
           (planId : option number) : Prop :=
  non_empty phone /\ (non_empty packageCode \/ truthy planId = true).

(** The process type of a wallet vend is acceptable: missing, empty, or one
    of queue and instant. *)
Definition processType_valid (processType : option jsstring) : Prop :=
  truthy processType = false
  \/ exists t, processType = Some t /\ In t processTypes.

(* ================================================================= *)
(** * Basic facts *)

Lemma jsstring_eqb_eq (a b : jsstring) : jsstring_eqb a b = true <-> a = b.
Proof.
  revert b; induction a as [|x a IH]; intros [|y b]; simpl;
    try (split; [discriminate | congruence]); try tauto.
  rewrite andb_true_iff, N.eqb_eq, IH. split.
  - intros [-> ->]; reflexivity.
  - intros E; injection E; auto.
Qed.

Lemma jsstring_eqb_refl (a : jsstring) : jsstring_eqb a a = true.
Proof. apply jsstring_eqb_eq; reflexivity. Qed.

Lemma includes_In (l : list jsstring) (x : jsstring) :
  includes l x = true <-> In x l.
Proof.
  unfold includes. rewrite existsb_exists. split.
  - intros (y & Hy & E). apply jsstring_eqb_eq in E. subst; assumption.
  - intros H. exists x. split; [assumption | apply jsstring_eqb_refl].
Qed.

Lemma includes_not_In (l : list jsstring) (x : jsstring) :
  includes l x = false <-> ~ In x l.
Proof.
  rewrite <- includes_In. destruct (includes l x); split; congruence.
Qed.

Lemma throws_Throw {T A} (msg : string) : throws (@Throw T A (mkError msg)) msg.
Proof. split; reflexivity. Qed.

Lemma rejects_Throw {T A} (msg : string) :
  In msg validation_messages -> rejects (@Throw T A (mkError msg)).
Proof. intros H. exists msg. split; [assumption | apply throws_Throw]. Qed.

Lemma requests_Throw {T A} (net : network T) (e : Error) :
  requests net (@Throw T A e) = [].
Proof. reflexivity. Qed.

(** A method that awaits one request and returns at once issues exactly
    that request, whatever the network answers. *)
Lemma requests_single {T A} (net : network T) ep me d
      (f : APIResponse.t T -> A) :
  requests net (makeRequest ep me d (fun r => Return (f r)))
  = [mkCall ep me d].
Proof. unfold requests; simpl. destruct (net ep me d); reflexivity. Qed.

Lemma get_app (a b : object) (k : string) :
  get (a ++ b) k = match get a k with Some v => Some v | None => get b k end.
Proof.
  induction a as [|[k' v] a IH]; simpl; [reflexivity|].
  destruct (String.eqb k k'); auto.
Qed.

Lemma get_spread_if (c : bool) (o : object) (k : string) :
  get (spread_if c o) k = if c then get o k else None.
Proof. destruct c; reflexivity. Qed.

(* ================================================================= *)
(** * purchaseAirtime *)

Import AirtimePurchaseParams.

(** C1: a call of purchaseAirtime whose operator is not one of mtn, airtel,
    glo, 9mobile, or whose amount is below 50 or above 50000, or that lacks
    one of networkOperator, phone, amount, maxAmount, throws a validation
    error and never calls makeRequest. *)
Theorem purchaseAirtime_rejects_invalid (params : AirtimePurchaseParams.t) :
  (forall op, networkOperator params = Some op -> ~ In op operators)
  \/ (exists a, amount params = Some a /\ number_lt a (Finite 50) = true)
  \/ (exists a, amount params = Some a /\ number_gt a (Finite 50000) = true)
  \/ networkOperator params = None
  \/ phone params = None
  \/ amount params = None
  \/ maxAmount params = None ->
  rejects (purchaseAirtime params).
Proof.
  destruct params as [op ph am mx cb cr].
  cbn [networkOperator phone amount maxAmount]. unfold purchaseAirtime.
  intros H.
  destruct (negb (truthy op) || negb (truthy ph)
            || negb (truthy am) || negb (truthy mx)) eqn:Ereq.
  { apply rejects_Throw; simpl; auto. }
  destruct (negb (includes_opt operators op)) eqn:Eop.
  { apply rejects_Throw; simpl; auto. }
  destruct (number_lt (to_number am) (Finite 50)
            || number_gt (to_number am) (Finite 50000)) eqn:Eam.
  { apply rejects_Throw; simpl; auto. }
  exfalso.
  repeat (apply orb_false_iff in Ereq; destruct Ereq as [Ereq ?]).
  apply orb_false_iff in Eam; destruct Eam as [Elt Egt].
  apply negb_false_iff in Eop.
  destruct op as [op|]; [|discriminate].
  destruct ph as [ph|]; [|discriminate].
  destruct am as [am|]; [|discriminate].
  destruct mx as [mx|]; [|discriminate].
  cbn [includes_opt to_number] in *.
  destruct H as [H|[(a & E & H)|[(a & E & H)|[H|[H|[H|H]]]]]];
    try discriminate.
  - apply (H op eq_refl). apply includes_In; assumption.
  - injection E as <-. congruence.
  - injection E as <-. congruence.
Qed.

Lemma purchaseAirtime_rejects_invalid_witness :
  rejects (purchaseAirtime (airtime_params "mtn" 25))
  /\ rejects (purchaseAirtime (airtime_params "mtn" 60000))
  /\ rejects (purchaseAirtime (airtime_params "sprint" 100)).
Proof.
  repeat split; apply purchaseAirtime_rejects_invalid.
  - right; left. exists (Finite 25). split; reflexivity.
  - right; right; left. exists (Finite 60000). split; reflexivity.
  - left. intros op E. injection E as <-. apply includes_not_In. reflexivity.
Defined.

Example purchaseAirtime_accepts (net : network AirtimeResponse.t) :
  requests net (purchaseAirtime (airtime_params "mtn" 100))
  = [mkCall "/airtime" "POST"
       (Some [("network_operator", JString (js "mtn"));
              ("phone", JString (js "08012345678"));
              ("amount", JNumber (Finite 100));
              ("max_amount", JString (js "100"))])].
Proof. apply requests_single. Qed.

(* ================================================================= *)
(** * purchaseData and vendDataFromWallet *)

(** Reads the properties of a request body built by spreads. *)
Ltac lookup_fields :=
  repeat split;
  rewrite ?get_app, ?get_spread_if, ?andb_false_r; cbn [get];
  repeat match goal with
         | |- context [String.eqb ?a ?b] =>
             let v := eval vm_compute in (String.eqb a b) in
             change (String.eqb a b) with v; cbn iota
         end;
  rewrite ?get_app, ?get_spread_if, ?andb_false_r;
  repeat match goal with
         | |- context [if ?c then _ else _] => destruct c
         end;
  try reflexivity.

(** What [purchaseData] does, by the outcome of its two checks. *)
Lemma purchaseData_cases (params : DataPurchaseParams.t) :
  let phone := DataPurchaseParams.phone params in
  let packageCode := DataPurchaseParams.packageCode params in
  let planId := DataPurchaseParams.planId params in
  (truthy phone = false
   /\ purchaseData params = Throw (mkError "phone is required"))
  \/ (truthy phone = true /\ truthy packageCode = false
      /\ truthy planId = false
      /\ purchaseData params
         = Throw (mkError "Either packageCode or planId is required"))
  \/ (truthy phone = true /\ truthy packageCode || truthy planId = true
      /\ exists b,
          purchaseData params
          = makeRequest "/data" "POST" (Some b)
              (fun r => Return (APIResponse.data r))
          /\ get b "phone" = Some (of_string phone)
          /\ get b "package_code"
             = (if truthy packageCode then Some (of_string packageCode)
                else None)
          /\ get b "plan_id"
             = (if truthy planId && negb (truthy packageCode)
                then Some (of_number planId) else None)).
Proof.
  destruct params as [ph pc pid mx cb cr].
  cbn [DataPurchaseParams.phone DataPurchaseParams.packageCode
       DataPurchaseParams.planId].
  unfold purchaseData.
  destruct (truthy ph) eqn:Eph; cbn [negb]; [|left; auto].
  destruct (truthy pc) eqn:Epc; cbn [negb andb orb].
  - right; right. repeat split. eexists. split; [reflexivity|].
    rewrite ?andb_false_r. lookup_fields.
  - destruct (truthy pid) eqn:Epid; cbn [negb andb].
    + right; right. repeat split. eexists. split; [reflexivity|]. lookup_fields.
    + right; left. auto.
Qed.

(** What [vendDataFromWallet] does, by the outcome of its three checks. *)
Lemma vendDataFromWallet_cases (params : DataWalletVendParams.t) :
  let phone := DataWalletVendParams.phone params in
  let packageCode := DataWalletVendParams.packageCode params in
  let planId := DataWalletVendParams.planId params in
  let processType := DataWalletVendParams.processType params in
  (truthy phone = false
   /\ vendDataFromWallet params = Throw (mkError "phone is required"))
  \/ (truthy phone = true /\ truthy packageCode = false
      /\ truthy planId = false
      /\ vendDataFromWallet params
         = Throw (mkError "Either packageCode or planId is required"))
  \/ (truthy phone = true /\ truthy packageCode || truthy planId = true
      /\ truthy processType = true
      /\ includes_opt processTypes processType = false
      /\ vendDataFromWallet params
         = Throw (mkError
             ("processType must be either " ++ dquote ++ "queue" ++ dquote
              ++ " or " ++ dquote ++ "instant" ++ dquote)%string))
  \/ (truthy phone = true /\ truthy packageCode || truthy planId = true
      /\ (truthy processType = false
          \/ includes_opt processTypes processType = true)
      /\ exists b,
          vendDataFromWallet params
          = makeRequest "/data/wallet" "POST" (Some b)
              (fun r => Return (APIResponse.data r))
          /\ get b "phone" = Some (of_string phone)
          /\ get b "package_code"
             = (if truthy packageCode then Some (of_string packageCode)
                else None)
          /\ get b "plan_id"
             = (if truthy planId && negb (truthy packageCode)
                then Some (of_number planId) else None)
          /\ get b "process_type"
             = (if truthy processType then Some (of_string processType)
                else None)).
Proof.
  destruct params as [ph pc pid pt cb cr].
  cbn [DataWalletVendParams.phone DataWalletVendParams.packageCode
       DataWalletVendParams.planId DataWalletVendParams.processType].
  unfold vendDataFromWallet.
  destruct (truthy ph) eqn:Eph; cbn [negb]; [|left; auto].
  assert (Hsend :
    truthy pc || truthy pid = true ->
    (truthy pt = false \/ includes_opt processTypes pt = true) ->
    truthy pt && negb (includes_opt processTypes pt) = false).
  { intros _ [-> | ->]; [reflexivity | apply andb_false_r]. }
  destruct (truthy pc) eqn:Epc; cbn [negb andb orb].
  - destruct (truthy pt) eqn:Ept; cbn [andb].
    + destruct (includes_opt processTypes pt) eqn:Einc; cbn [negb].
      * right; right; right. repeat split; auto.
        eexists. split; [reflexivity|].
        lookup_fields.
      * right; right; left. auto.
    + right; right; right. repeat split; auto.
      eexists. split; [reflexivity|].
      lookup_fields.
  - destruct (truthy pid) eqn:Epid; cbn [negb andb].
    + destruct (truthy pt) eqn:Ept; cbn [andb].
      * destruct (includes_opt processTypes pt) eqn:Einc; cbn [negb].
        -- right; right; right. repeat split; auto.
           eexists. split; [reflexivity|]. lookup_fields.
        -- right; right; left. auto.
      * right; right; right. repeat split; auto.
        eexists. split; [reflexivity|]. lookup_fields.
    + right; left. auto.
Qed.

Lemma purchaseData_request (params : DataPurchaseParams.t) net c b :
  In c (requests net (purchaseData params)) -> body c = Some b ->
  c = mkCall "/data" "POST" (Some b)
  /\ identifier_fields (DataPurchaseParams.packageCode params)
       (DataPurchaseParams.planId params) b.
Proof.
  intros Hin Hb.
  destruct (purchaseData_cases params)
    as [(_ & E) | [(_ & _ & _ & E) | (_ & Hid & b' & E & _ & Hpc & Hpid)]];
    rewrite E in Hin.
  - contradiction.
  - contradiction.
  - rewrite requests_single in Hin. destruct Hin as [<- | []].
    cbn in Hb. injection Hb as ->. repeat split; assumption.
Qed.

Lemma vendDataFromWallet_request (params : DataWalletVendParams.t) net c b :
  let processType := DataWalletVendParams.processType params in
  In c (requests net (vendDataFromWallet params)) -> body c = Some b ->
  c = mkCall "/data/wallet" "POST" (Some b)
  /\ identifier_fields (DataWalletVendParams.packageCode params)
       (DataWalletVendParams.planId params) b
  /\ (truthy processType = false
      \/ includes_opt processTypes processType = true)
  /\ get b "process_type"
     = (if truthy processType then Some (of_string processType) else None).
Proof.
  intros pt Hin Hb.
  destruct (vendDataFromWallet_cases params)
    as [(_ & E) | [(_ & _ & _ & E) | [(_ & _ & _ & _ & E)
        | (_ & Hid & Hpt & b' & E & _ & Hpc & Hpid & Hproc)]]];
    rewrite E in Hin; try contradiction.
  rewrite requests_single in Hin. destruct Hin as [<- | []].
  cbn in Hb. injection Hb as ->. repeat split; assumption.
Qed.

Lemma truthy_nonempty (code : jsstring) :
  code <> [] -> truthy (Some code) = true.
Proof. destruct code; [congruence | reflexivity]. Qed.

(** The two rules follow from the way the body is built. *)
Lemma identifier_rules {T A} (phone packageCode : option jsstring)
      (planId : option number) (p : prog T A) :
  (truthy phone = false -> throws p "phone is required") ->
  (truthy phone = true -> truthy packageCode = false ->
   truthy planId = false ->
   throws p "Either packageCode or planId is required") ->
  (forall net c b, In c (requests net p) -> body c = Some b ->
     identifier_fields packageCode planId b) ->
  plan_identifier_rule packageCode planId p
  /\ falsy_identifier_rule phone packageCode planId p.
Proof.
  intros Hphone Hnone Hreq.
  assert (Hrej : truthy packageCode = false -> truthy planId = false ->
                 exists msg, throws p msg /\ In msg validation_messages
                   /\ (truthy phone = true ->
                       msg = "Either packageCode or planId is required")).
  { intros Hpc Hpid. destruct (truthy phone) eqn:Eph.
    - eexists. split; [apply Hnone; auto|]. split; [|reflexivity].
      simpl; auto 10.
    - eexists. split; [apply Hphone; auto|]. split; [|discriminate].
      simpl; auto 10. }
  split; split.
  - intros -> ->. destruct Hrej as (msg & ? & ? & _); try reflexivity.
    exists msg; auto.
  - intros net c b Hin Hb.
    destruct (Hreq net c b Hin Hb) as (Hid & Hpc & Hpid). split.
    + intros code -> Hne. rewrite Hpc, Hpid.
      rewrite (truthy_nonempty Hne), andb_false_r. auto.
    + intros n Hf ->. rewrite Hf in *. cbn [orb negb] in *.
      rewrite Hpc, Hpid, Hid. auto.
  - intros -> ->. apply Hrej; reflexivity.
  - intros net c b Hin Hb.
    destruct (Hreq net c b Hin Hb) as (Hid & Hpc & Hpid).
    rewrite Hpc, Hpid. split.
    + destruct (truthy packageCode); rewrite ?andb_false_r, ?andb_true_r;
        cbn [negb]; [discriminate|].
      destruct (truthy planId) eqn:E; [|discriminate].
      destruct planId as [n|]; [|discriminate]. cbn [of_number].
      intros H. injection H as ->. discriminate E.
    + destruct packageCode as [[|x code]|]; cbn; discriminate.
Qed.

Lemma throws_eq {T A} (p : prog T A) msg :
  p = Throw (mkError msg) -> throws p msg.
Proof. intros ->. apply throws_Throw. Qed.

Lemma purchaseData_rules (params : DataPurchaseParams.t) :
  plan_identifier_rule (DataPurchaseParams.packageCode params)
    (DataPurchaseParams.planId params) (purchaseData params)
  /\ falsy_identifier_rule (DataPurchaseParams.phone params)
       (DataPurchaseParams.packageCode params)
       (DataPurchaseParams.planId params) (purchaseData params).
Proof.
  apply identifier_rules.
  - intros H. apply throws_eq.
    destruct (purchaseData_cases params)
      as [(_ & E) | [(H' & _) | (H' & _)]]; congruence.
  - intros Hph Hpc Hpid. apply throws_eq.
    destruct (purchaseData_cases params)
      as [(H' & _) | [(_ & _ & _ & E) | (_ & H' & _)]];
      try congruence.
    rewrite Hpc, Hpid in H'. discriminate.
  - intros net c b Hin Hb.
    apply (purchaseData_request params net c Hin Hb).
Qed.

Lemma vendDataFromWallet_rules (params : DataWalletVendParams.t) :
  plan_identifier_rule (DataWalletVendParams.packageCode params)
    (DataWalletVendParams.planId params) (vendDataFromWallet params)
  /\ falsy_identifier_rule (DataWalletVendParams.phone params)
       (DataWalletVendParams.packageCode params)
       (DataWalletVendParams.planId params) (vendDataFromWallet params).
Proof.
  apply identifier_rules.
  - intros H. apply throws_eq.
    destruct (vendDataFromWallet_cases params)
      as [(_ & E) | [(H' & _) | [(H' & _) | (H' & _)]]]; congruence.
  - intros Hph Hpc Hpid. apply throws_eq.
    destruct (vendDataFromWallet_cases params)
      as [(H' & _) | [(_ & _ & _ & E) | [(_ & H' & _) | (_ & H' & _)]]];
      try congruence; rewrite Hpc, Hpid in H'; discriminate.
  - intros net c b Hin Hb.
    apply (vendDataFromWallet_request params net c Hin Hb).
Qed.

(** C2, as amended: in purchaseData and in vendDataFromWallet, a call that
    supplies neither packageCode nor planId throws a validation error before
    any request; when packageCode is supplied and is not the empty string,
    the body of the request has package_code set to it and no plan_id,
    whether or not planId is supplied; when planId is supplied and
    packageCode is absent or empty, the body has plan_id set to it and no
    package_code. *)
Theorem plan_identifier_precedence
        (pd : DataPurchaseParams.t) (pw : DataWalletVendParams.t) :
  plan_identifier_rule (DataPurchaseParams.packageCode pd)
    (DataPurchaseParams.planId pd) (purchaseData pd)
  /\ plan_identifier_rule (DataWalletVendParams.packageCode pw)
       (DataWalletVendParams.planId pw) (vendDataFromWallet pw).
Proof.
  split; [apply purchaseData_rules | apply vendDataFromWallet_rules].
Qed.

Lemma plan_identifier_precedence_witness :
  let b1 := [("phone", JString (js "08012345678"));
             ("package_code", JString (js "MTN-1GB"))] in
  let b2 := [("phone", JString (js "08012345678"));
             ("plan_id", JNumber (Finite 123))] in
  rejects (purchaseData (data_params None None))
  /\ requests (offline _)
       (purchaseData (data_params (Some (js "MTN-1GB")) (Some (Finite 123))))
     = [mkCall "/data" "POST" (Some b1)]
  /\ requests (offline _)
       (vendDataFromWallet (vend_params None (Some (Finite 123)) None))
     = [mkCall "/data/wallet" "POST" (Some b2)]
  /\ (get b1 "package_code" = Some (JString (js "MTN-1GB"))
      /\ get b1 "plan_id" = None)
  /\ (get b2 "plan_id" = Some (JNumber (Finite 123))
      /\ get b2 "package_code" = None).
Proof.
  intros b1 b2.
  destruct (plan_identifier_precedence
              (data_params None None)
              (vend_params None (Some (Finite 123)) None))
    as [[Hneither _] [_ Hwallet]].
  destruct (plan_identifier_precedence
              (data_params (Some (js "MTN-1GB")) (Some (Finite 123)))
              (vend_params None None None))
    as [[_ Hdata] _].
  split; [apply Hneither; reflexivity |].
  split; [reflexivity |]. split; [reflexivity |]. split.
  - apply (Hdata (offline _) (mkCall "/data" "POST" (Some b1)) b1);
      [left; reflexivity | reflexivity | reflexivity | discriminate].
  - apply (Hwallet (offline _) (mkCall "/data/wallet" "POST" (Some b2)) b2);
      [left; reflexivity | reflexivity | reflexivity | reflexivity].
Defined.

(** C2 as stated fails: with both identifiers supplied and packageCode the
    empty string, purchaseData sends plan_id and no package_code. *)
Lemma plan_identifier_precedence_counterexample :
  let params := data_params (Some []) (Some (Finite 5)) in
  let b := [("phone", JString (js "08012345678"));
            ("plan_id", JNumber (Finite 5))] in
  supplied (DataPurchaseParams.packageCode params) = true
  /\ supplied (DataPurchaseParams.planId params) = true
  /\ (forall net, requests net (purchaseData params)
                  = [mkCall "/data" "POST" (Some b)])
  /\ get b "package_code" = None
  /\ get b "plan_id" = Some (JNumber (Finite 5)).
Proof.
  cbv zeta. repeat apply conj; try reflexivity.
  intros net. apply requests_single.
Qed.

(** C3, as amended: a call of vendDataFromWallet whose processType is
    supplied, is not the empty string and is neither queue nor instant
    throws a validation error before any request; in the body of a request,
    process_type is absent when processType is omitted or empty, and equals
    processType when that is queue or instant. *)
Theorem processType_rule (params : DataWalletVendParams.t) :
  let processType := DataWalletVendParams.processType params in
  (forall t, processType = Some t -> t <> [] -> ~ In t processTypes ->
     rejects (vendDataFromWallet params))
  /\ (forall net c b,
        In c (requests net (vendDataFromWallet params)) ->
        body c = Some b ->
        (processType = None -> get b "process_type" = None)
        /\ (processType = Some [] -> get b "process_type" = None)
        /\ (forall t, processType = Some t -> In t processTypes ->
              get b "process_type" = Some (JString t))).
Proof.
  intros pt. split.
  - intros t Ept Hne Hnot.
    destruct (vendDataFromWallet_cases params)
      as [(_ & E) | [(_ & _ & _ & E) | [(_ & _ & _ & _ & E)
          | (_ & _ & Hpt & _)]]];
      try (rewrite E; apply rejects_Throw; simpl; auto 10).
    exfalso. fold pt in Hpt. rewrite Ept in Hpt.
    rewrite (truthy_nonempty Hne) in Hpt. cbn [includes_opt] in Hpt.
    destruct Hpt as [Hpt | Hpt]; [discriminate|].
    apply includes_In in Hpt. contradiction.
  - intros net c b Hin Hb.
    destruct (vendDataFromWallet_request params net c Hin Hb)
      as (_ & _ & _ & Hget).
    fold pt in Hget. rewrite Hget. repeat split.
    + intros ->. reflexivity.
    + intros ->. reflexivity.
    + intros t -> Ht.
      assert (Hne : t <> []).
      { intros ->. simpl in Ht. destruct Ht as [Ht | [Ht | []]];
          discriminate. }
      rewrite (truthy_nonempty Hne). reflexivity.
Qed.

Lemma processType_rule_witness :
  let b := [("phone", JString (js "08012345678"));
            ("package_code", JString (js "MTN-1GB"));
            ("process_type", JString (js "instant"))] in
  rejects (vendDataFromWallet
             (vend_params (Some (js "MTN-1GB")) None (Some (js "later"))))
  /\ requests (offline _)
       (vendDataFromWallet
          (vend_params (Some (js "MTN-1GB")) None (Some (js "instant"))))
     = [mkCall "/data/wallet" "POST" (Some b)]
  /\ get b "process_type" = Some (JString (js "instant")).
Proof.
  intros b. split; [|split; [reflexivity|]].
  - apply (processType_rule
             (vend_params (Some (js "MTN-1GB")) None (Some (js "later"))))
      with (t := js "later");
      [reflexivity | discriminate | apply includes_not_In; reflexivity].
  - apply (processType_rule
             (vend_params (Some (js "MTN-1GB")) None (Some (js "instant"))))
      with (net := offline _) (c := mkCall "/data/wallet" "POST" (Some b));
      [left; reflexivity | reflexivity | reflexivity
       | apply includes_In; reflexivity].
Defined.

(** C3 as stated fails: a processType that is supplied as the empty string
    is neither queue nor instant, yet the call is not rejected and the
    request is sent, without a process_type. *)
Lemma processType_rule_counterexample :
  let params := vend_params (Some (js "MTN-1GB")) None (Some []) in
  let b := [("phone", JString (js "08012345678"));
            ("package_code", JString (js "MTN-1GB"))] in
  supplied (DataWalletVendParams.processType params) = true
  /\ includes_opt processTypes (DataWalletVendParams.processType params)
     = false
  /\ (forall net, requests net (vendDataFromWallet params)
                  = [mkCall "/data/wallet" "POST" (Some b)])
  /\ ~ rejects (vendDataFromWallet params).
Proof.
  cbv zeta. repeat apply conj; try reflexivity.
  - intros net. apply requests_single.
  - intros (msg & _ & E & _). discriminate E.
Qed.

(** C10: in purchaseData and in vendDataFromWallet a planId of 0 and a
    packageCode that is the empty string are treated as absent.  A call with
    planId 0 and no packageCode throws a validation error before any
    request, and that error is "Either packageCode or planId is required"
    as soon as the phone is there; no request body carries a plan_id of 0 or
    an empty package_code; and either operation behaves on a zero planId, or
    on an empty packageCode, exactly as it does when the property is
    missing. *)
Theorem falsy_identifiers_are_absent
        (pd : DataPurchaseParams.t) (pw : DataWalletVendParams.t) :
  falsy_identifier_rule (DataPurchaseParams.phone pd)
    (DataPurchaseParams.packageCode pd) (DataPurchaseParams.planId pd)
    (purchaseData pd)
  /\ falsy_identifier_rule (DataWalletVendParams.phone pw)
       (DataWalletVendParams.packageCode pw) (DataWalletVendParams.planId pw)
       (vendDataFromWallet pw)
  /\ (forall ph pc mx cb cr,
        purchaseData (DataPurchaseParams.mk ph pc (Some (Finite 0)) mx cb cr)
        = purchaseData (DataPurchaseParams.mk ph pc None mx cb cr))
  /\ (forall ph pid mx cb cr,
        purchaseData (DataPurchaseParams.mk ph (Some []) pid mx cb cr)
        = purchaseData (DataPurchaseParams.mk ph None pid mx cb cr))
  /\ (forall ph pc pt cb cr,
        vendDataFromWallet
          (DataWalletVendParams.mk ph pc (Some (Finite 0)) pt cb cr)
        = vendDataFromWallet (DataWalletVendParams.mk ph pc None pt cb cr))
  /\ (forall ph pid pt cb cr,
        vendDataFromWallet
          (DataWalletVendParams.mk ph (Some []) pid pt cb cr)
        = vendDataFromWallet (DataWalletVendParams.mk ph None pid pt cb cr)).
Proof.
  split; [apply purchaseData_rules|].
  split; [apply vendDataFromWallet_rules|].
  repeat split; intros; reflexivity.
Qed.

Lemma falsy_identifiers_are_absent_witness :
  throws (purchaseData (data_params None (Some (Finite 0))))
         "Either packageCode or planId is required"
  /\ throws (vendDataFromWallet (vend_params None (Some (Finite 0)) None))
            "Either packageCode or planId is required"
  /\ forall b,
       In (mkCall "/data" "POST" (Some b))
          (requests (offline _)
             (purchaseData (data_params (Some []) (Some (Finite 7))))) ->
       get b "package_code" <> Some (JString []).
Proof.
  destruct (falsy_identifiers_are_absent
              (data_params None (Some (Finite 0)))
              (vend_params None (Some (Finite 0)) None))
    as ([Hd _] & [Hw _] & _).
  destruct (falsy_identifiers_are_absent
              (data_params (Some []) (Some (Finite 7)))
              (vend_params None None None))
    as ([_ Hbody] & _).
  split; [|split].
  - destruct (Hd eq_refl eq_refl) as (msg & Hthrows & _ & Hmsg).
    rewrite <- (Hmsg eq_refl). assumption.
  - destruct (Hw eq_refl eq_refl) as (msg & Hthrows & _ & Hmsg).
    rewrite <- (Hmsg eq_refl). assumption.
  - intros b Hin. apply (Hbody _ _ b Hin eq_refl).
Defined.

Example zero_planId_no_request (net : network DataResponse.t) :
  run net (purchaseData (data_params None (Some (Finite 0))))
  = ([], Rejected (mkError "Either packageCode or planId is required")).
Proof. reflexivity. Qed.

(* ================================================================= *)
(** * The catalog: getDataPlansByOperator, findDataPlan, getDataPlanPrice *)

Lemma run_getDataPlans {A} (net : network DataPlansResponse.t) response
      (f : DataPlansResponse.t -> prog DataPlansResponse.t A) :
  fetches net response ->
  run net (bind getDataPlans f)
  = (plans_call :: fst (run net (f response)), snd (run net (f response))).
Proof.
  intros [st E]. unfold getDataPlans. cbn [bind run]. rewrite E.
  cbn [APIResponse.data]. destruct (run net (f response)); reflexivity.
Qed.

Lemma truthy_catalog (response : DataPlansResponse.t) :
  truthy (DataPlansResponse.success response)
  && truthy (DataPlansResponse.data response)
  = supplied (catalog response).
Proof.
  unfold catalog.
  destruct (DataPlansResponse.success response),
           (DataPlansResponse.data response); reflexivity.
Qed.

Lemma find_first_with_code (code : jsstring) (plans : list DataPlan.t) :
  match find (fun plan => jsstring_eqb (DataPlan.package_code plan) code)
             plans with
  | Some plan => first_with_code code plans plan
  | None => Forall (fun q => DataPlan.package_code q <> code) plans
  end.
Proof.
  induction plans as [|q plans IH]; simpl; [constructor|].
  destruct (jsstring_eqb (DataPlan.package_code q) code) eqn:E.
  - apply jsstring_eqb_eq in E. exists [], plans. repeat split; auto.
  - assert (Hq : DataPlan.package_code q <> code).
    { intros H. apply jsstring_eqb_eq in H. congruence. }
    destruct (find _ plans) as [plan|].
    + destruct IH as (before & after & -> & Hc & Hb).
      exists (q :: before), after. repeat split; auto.
    + constructor; assumption.
Qed.

Lemma run_findDataPlan (net : network DataPlansResponse.t) response code :
  fetches net response ->
  run net (findDataPlan code)
  = ([plans_call],
     Resolved
       match catalog response with
       | Some plans =>
           find (fun plan => jsstring_eqb (DataPlan.package_code plan) code)
                plans
       | None => None
       end).
Proof.
  intros H. unfold findDataPlan. rewrite (run_getDataPlans _ H).
  rewrite truthy_catalog. unfold catalog.
  destruct (DataPlansResponse.success response),
           (DataPlansResponse.data response) as [plans|];
    cbn; try reflexivity.
  destruct (find _ plans); reflexivity.
Qed.

(** C4: for an operator among mtn, airtel, glo, 9mobile and a network that
    answers the catalog request with an envelope, getDataPlansByOperator
    makes that one request and returns the entries of the plan list whose
    network_operator equals the argument, in catalog order; it returns the
    empty list, without throwing, when the success flag is false or the
    plan list is absent. *)
Theorem getDataPlansByOperator_filters
        (networkOperator : jsstring) (net : network DataPlansResponse.t)
        (response : DataPlansResponse.t) :
  In networkOperator operators ->
  fetches net response ->
  exists plans,
    run net (getDataPlansByOperator networkOperator)
    = ([plans_call], Resolved plans)
    /\ (forall data,
          DataPlansResponse.success response = true ->
          DataPlansResponse.data response = Some data ->
          plans = filter
                    (fun plan => jsstring_eqb (DataPlan.network_operator plan)
                                              networkOperator) data
          /\ forall plan,
               In plan plans
               <-> In plan data
                   /\ DataPlan.network_operator plan = networkOperator)
    /\ (DataPlansResponse.success response = false
        \/ DataPlansResponse.data response = None -> plans = []).
Proof.
  intros Hop Hnet. unfold getDataPlansByOperator.
  apply includes_In in Hop. rewrite Hop. cbn [negb].
  rewrite (run_getDataPlans _ Hnet).
  destruct (DataPlansResponse.success response) eqn:Es,
           (DataPlansResponse.data response) as [data|] eqn:Ed;
    cbn; eexists; (split; [reflexivity|]); split;
    try discriminate; try (intros; reflexivity).
  - intros data' _ E. injection E as <-. split; [reflexivity|].
    intros plan. rewrite filter_In, jsstring_eqb_eq. tauto.
  - intros [H | H]; discriminate.
Qed.

Lemma sample_network_fetches : fetches sample_network sample_response.
Proof. exists 200%Z. reflexivity. Defined.

Lemma getDataPlansByOperator_filters_witness :
  exists plans,
    run sample_network (getDataPlansByOperator (js "mtn"))
    = ([plans_call], Resolved plans)
    /\ plans = [plan_mtn_1gb; plan_mtn_2gb].
Proof.
  destruct (@getDataPlansByOperator_filters (js "mtn") sample_network
              sample_response)
    as (plans & Hrun & Hok & _).
  - simpl; auto.
  - apply sample_network_fetches.
  - exists plans. split; [assumption|].
    apply (Hok [plan_mtn_1gb; plan_glo_free; plan_mtn_2gb]); reflexivity.
Defined.

(** C6: for a network that answers the catalog request with an envelope,
    findDataPlan makes that one request and returns the first entry of the
    plan list whose package_code equals the argument; it returns null when
    no entry has that package code, when the success flag is false and when
    the plan list is absent. *)
Theorem findDataPlan_first_match
        (packageCode : jsstring) (net : network DataPlansResponse.t)
        (response : DataPlansResponse.t) :
  fetches net response ->
  exists found,
    run net (findDataPlan packageCode) = ([plans_call], Resolved found)
    /\ (forall data,
          DataPlansResponse.success response = true ->
          DataPlansResponse.data response = Some data ->
          match found with
          | Some plan => first_with_code packageCode data plan
          | None =>
              Forall (fun q => DataPlan.package_code q <> packageCode) data
          end)
    /\ (DataPlansResponse.success response = false
        \/ DataPlansResponse.data response = None -> found = None).
Proof.
  intros Hnet. rewrite (run_findDataPlan _ Hnet). unfold catalog.
  eexists. split; [reflexivity|]. split.
  - intros data -> ->. apply find_first_with_code.
  - intros [-> | H]; [reflexivity|].
    rewrite H. destruct (DataPlansResponse.success response); reflexivity.
Qed.

Lemma findDataPlan_first_match_witness :
  exists found,
    run sample_network (findDataPlan (js "GLO-FREE"))
    = ([plans_call], Resolved found)
    /\ match found with
       | Some plan =>
           first_with_code (js "GLO-FREE")
             [plan_mtn_1gb; plan_glo_free; plan_mtn_2gb] plan
       | None => False
       end.
Proof.
  destruct (@findDataPlan_first_match (js "GLO-FREE") sample_network
              sample_response sample_network_fetches)
    as (found & Hrun & Hok & _).
  exists found. split; [assumption|].
  specialize (Hok _ eq_refl eq_refl).
  injection Hrun as <-. exact Hok.
Defined.

(** C5: for a network that answers the catalog request with an envelope,
    getDataPlanPrice looks the plan up as findDataPlan does and uses the
    regular tier when priceType is omitted; it returns null when the plan is
    not found and when the price of the tier is falsy (zero or NaN),
    otherwise the price of the tier: regular_price for regular, agent_price
    for agent, dealer_price for dealer. *)
Theorem getDataPlanPrice_tier
        (packageCode : jsstring) (tier : option PriceTier)
        (net : network DataPlansResponse.t)
        (response : DataPlansResponse.t) :
  fetches net response ->
  let t := match tier with None => regular | Some t => t end in
  exists found,
    run net (findDataPlan packageCode) = ([plans_call], Resolved found)
    /\ run net (getDataPlanPrice packageCode (option_map tier_name tier))
       = ([plans_call],
          Resolved
            match found with
            | None => None
            | Some plan =>
                if truthy (tier_price t plan)
                then Some (tier_price t plan)
                else None
            end).
Proof.
  intros Hnet t. rewrite (run_findDataPlan _ Hnet).
  eexists. split; [reflexivity|].
  unfold getDataPlanPrice, findDataPlan.
  unfold getDataPlans. cbn [bind run].
  destruct Hnet as [st E]. rewrite E. cbn [APIResponse.data].
  rewrite truthy_catalog. unfold catalog.
  destruct (DataPlansResponse.success response),
           (DataPlansResponse.data response) as [plans|];
    cbn [supplied bind run fst snd]; try reflexivity.
  destruct (find _ plans) as [plan|]; cbn; [|reflexivity].
  destruct tier as [[| |]|]; cbn; reflexivity.
Qed.

Lemma getDataPlanPrice_tier_witness :
  run sample_network (getDataPlanPrice (js "MTN-1GB") None)
  = ([plans_call], Resolved (Some (Finite 300)))
  /\ run sample_network (getDataPlanPrice (js "MTN-2GB") (Some (js "dealer")))
     = ([plans_call], Resolved (Some (Finite 530)))
  /\ run sample_network (getDataPlanPrice (js "GLO-FREE") (Some (js "agent")))
     = ([plans_call], Resolved None)
  /\ run sample_network (getDataPlanPrice (js "MTN-9GB") None)
     = ([plans_call], Resolved None).
Proof.
  repeat apply conj.
  - destruct (@getDataPlanPrice_tier (js "MTN-1GB") None sample_network
                sample_response sample_network_fetches)
      as (found & Hfind & Hprice).
    injection Hfind as <-. exact Hprice.
  - destruct (@getDataPlanPrice_tier (js "MTN-2GB") (Some dealer)
                sample_network sample_response sample_network_fetches)
      as (found & Hfind & Hprice).
    injection Hfind as <-. exact Hprice.
  - destruct (@getDataPlanPrice_tier (js "GLO-FREE") (Some agent)
                sample_network sample_response sample_network_fetches)
      as (found & Hfind & Hprice).
    injection Hfind as <-. exact Hprice.
  - destruct (@getDataPlanPrice_tier (js "MTN-9GB") None sample_network
                sample_response sample_network_fetches)
      as (found & Hfind & Hprice).
    injection Hfind as <-. exact Hprice.
Defined.

(* ================================================================= *)
(** * Phone utilities *)

Lemma startsWith_app (s p : jsstring) :
  startsWith s p = true <-> exists r, s = p ++ r.
Proof.
  revert s; induction p as [|c p IH]; intros s; simpl.
  - split; [intros _; exists s; reflexivity | reflexivity].
  - destruct s as [|d s].
    + split; [discriminate | intros [r E]; discriminate].
    + rewrite andb_true_iff, N.eqb_eq, IH. split.
      * intros [-> [r ->]]. exists r; reflexivity.
      * intros [r E]. injection E as -> ->. split; [reflexivity | eauto].
Qed.

Lemma remove_prefix_startsWith (p s : jsstring) :
  remove_prefix p s
  = if startsWith s p then Some (substring s (List.length p)) else None.
Proof.
  revert s; induction p as [|c p IH]; intros [|d s]; simpl; try reflexivity.
  rewrite N.eqb_sym. destruct (N.eqb d c); [apply IH | reflexivity].
Qed.

Lemma remove_prefix_app (p s r : jsstring) :
  remove_prefix p s = Some r <-> s = p ++ r.
Proof.
  revert s; induction p as [|c p IH]; intros [|d s]; simpl;
    try (split; congruence).
  destruct (N.eqb_spec c d) as [->|Hne].
  - rewrite IH. split; congruence.
  - split; [discriminate | congruence].
Qed.

(** ** The matcher on the pieces of the phone pattern *)

Lemma m_word (w : jsstring) i s (k : cont) :
  m (word w) i s k
  = if startsWith s w then k (i + List.length w)%nat (skipn (List.length w) s)
    else false.
Proof.
  revert i s; induction w as [|c w IH]; intros i s.
  - cbn. rewrite Nat.add_0_r. reflexivity.
  - change (m (word (c :: w)) i s k)
      with (one_char (N.eqb c) s i (fun i' s' => m (word w) i' s' k)).
    destruct s as [|d s]; [reflexivity|].
    cbn [one_char startsWith List.length skipn].
    rewrite IH, N.eqb_sym, Nat.add_succ_r.
    destruct (N.eqb d c); reflexivity.
Qed.

Lemma m_Repeat_S (n : nat) (a : regex) i s (k : cont) :
  m (Repeat (S n) a) i s k = m a i s (fun i' s' => m (Repeat n a) i' s' k).
Proof. reflexivity. Qed.

Lemma m_Repeat_Digit (n : nat) i s (k : cont) :
  m (Repeat n Digit) i s k
  = forallb is_digit (firstn n s) && Nat.leb n (List.length s)
    && k (i + n)%nat (skipn n s).
Proof.
  revert i s; induction n as [|n IH]; intros i s.
  - cbn. rewrite Nat.add_0_r. reflexivity.
  - rewrite m_Repeat_S.
    change (m Digit i s (fun i' s' => m (Repeat n Digit) i' s' k))
      with (one_char is_digit s i (fun i' s' => m (Repeat n Digit) i' s' k)).
    destruct s as [|c s]; [reflexivity|].
    cbn [one_char firstn forallb List.length skipn Nat.leb].
    rewrite IH, Nat.add_succ_r, !andb_assoc. reflexivity.
Qed.

Lemma exact_length (n : nat) (s : jsstring) :
  forallb is_digit (firstn n s) && Nat.leb n (List.length s)
  && match skipn n s with [] => true | _ :: _ => false end
  = Nat.eqb (List.length s) n && forallb is_digit s.
Proof.
  revert s; induction n as [|n IH]; intros [|c s];
    cbn [firstn skipn forallb List.length Nat.leb Nat.eqb andb];
    try reflexivity.
  destruct (is_digit c); cbn [andb].
  - apply IH.
  - symmetry. apply andb_false_r.
Qed.

(** A pattern that begins with [^] can only match at index 0. *)
Lemma test_anchored (r : regex) (s : jsstring) :
  test (Seq AssertStart r) s = m r 0 s (fun _ _ => true).
Proof.
  unfold test. cbn [seq existsb skipn].
  change (m (Seq AssertStart r) 0 s (fun _ _ => true))
    with (m r 0 s (fun _ _ => true)).
  assert (H : forall l, (forall i, In i l -> i <> 0%nat) ->
              existsb (fun i => m (Seq AssertStart r) i (skipn i s)
                                  (fun _ _ => true)) l = false).
  { induction l as [|i l IH]; intros Hl; [reflexivity|].
    cbn [existsb]. rewrite IH by (intros j Hj; apply Hl; right; exact Hj).
    destruct i as [|i]; [exfalso; apply (Hl 0%nat); [left|]; reflexivity|].
    reflexivity. }
  rewrite H; [apply orb_false_r|].
  intros i Hi. apply in_seq in Hi. lia.
Qed.

(** [[789][01]\d{8}$] *)
Lemma m_local_number i (s : jsstring) :
  m (Seq (ClassOf (js "789"))
       (Seq (ClassOf (js "01")) (Seq (Repeat 8 Digit) AssertEnd)))
    i s (fun _ _ => true)
  = is_local_number s.
Proof.
  destruct s as [|d1 [|d2 rest]]; try reflexivity.
  - cbn. apply andb_false_r.
  - change (m _ i (d1 :: d2 :: rest) _)
      with (existsb (N.eqb d1) (js "789")
            && (existsb (N.eqb d2) (js "01")
                && m (Repeat 8 Digit) (S (S i)) rest
                     (fun i' s' => match s' with
                                   | [] => true
                                   | _ :: _ => false
                                   end))).
    rewrite m_Repeat_Digit, exact_length.
    unfold is_local_number. rewrite !andb_assoc. reflexivity.
Qed.

(** What the phone pattern accepts, in terms of prefixes. *)
Lemma test_phoneRegex (s : jsstring) :
  test phoneRegex s
  = startsWith s (js "+234") && is_local_number (substring s 4)
    || startsWith s (js "234") && is_local_number (substring s 3)
    || startsWith s (js "0") && is_local_number (substring s 1)
    || is_local_number s.
Proof.
  unfold phoneRegex. rewrite test_anchored.
  set (local := Seq (ClassOf (js "789")) _).
  change (m (Seq (Opt (Alt (word (js "+234"))
                        (Alt (word (js "234")) (word (js "0"))))) local)
            0 s (fun _ _ => true))
    with (m (word (js "+234")) 0 s (fun i' s' => m local i' s' (fun _ _ => true))
          || (m (word (js "234")) 0 s
                (fun i' s' => m local i' s' (fun _ _ => true))
              || m (word (js "0")) 0 s
                   (fun i' s' => m local i' s' (fun _ _ => true)))
          || m local 0 s (fun _ _ => true)).
  rewrite !m_word. subst local. rewrite !m_local_number.
  unfold substring.
  change (List.length (js "+234")) with 4%nat.
  change (List.length (js "234")) with 3%nat.
  change (List.length (js "0")) with 1%nat.
  destruct (startsWith s (js "+234")), (startsWith s (js "234")),
           (startsWith s (js "0")); cbn [andb orb];
    rewrite ?orb_false_r, ?orb_assoc; reflexivity.
Qed.

Lemma existsb_eqb_In (d : code_unit) (l : list code_unit) :
  existsb (N.eqb d) l = true <-> In d l.
Proof.
  rewrite existsb_exists. split.
  - intros (x & Hx & E). apply N.eqb_eq in E. subst; assumption.
  - intros H. exists d. split; [assumption | apply N.eqb_refl].
Qed.

Lemma is_local_number_spec (s : jsstring) :
  is_local_number s = true
  <-> exists d1 d2 rest,
        s = d1 :: d2 :: rest
        /\ In d1 (js "789") /\ In d2 (js "01")
        /\ List.length rest = 8%nat
        /\ Forall (fun c => is_digit c = true) rest.
Proof.
  split.
  - destruct s as [|d1 [|d2 rest]]; try discriminate.
    unfold is_local_number. rewrite !andb_true_iff.
    rewrite !existsb_eqb_In, Nat.eqb_eq, forallb_forall, <- Forall_forall.
    intros [[[H1 H2] H3] H4]. exists d1, d2, rest. auto.
  - intros (d1 & d2 & rest & -> & H1 & H2 & H3 & H4).
    unfold is_local_number. rewrite !andb_true_iff.
    rewrite !existsb_eqb_In, Nat.eqb_eq, forallb_forall, <- Forall_forall.
    auto.
Qed.

Lemma substring_app (p l : jsstring) : substring (p ++ l) (List.length p) = l.
Proof. unfold substring. induction p; simpl; auto. Qed.

Lemma startsWith_prefix (p l : jsstring) : startsWith (p ++ l) p = true.
Proof. apply startsWith_app. exists l; reflexivity. Qed.

Lemma startsWith_split (s p : jsstring) :
  startsWith s p = true -> s = p ++ substring s (List.length p).
Proof.
  intros H. apply startsWith_app in H. destruct H as [r ->].
  rewrite substring_app. reflexivity.
Qed.

(** C7: isValidPhone returns true exactly when the input, with every
    whitespace character removed, is an optional prefix "+234", "234" or "0"
    followed by a digit among 7, 8, 9, a digit among 0, 1 and eight more
    digits, with nothing before or after; it returns false on every other
    string. *)
Theorem isValidPhone_iff_pattern (phone : jsstring) :
  (isValidPhone phone = true <-> phone_pattern (replace_whitespace phone))
  /\ (isValidPhone phone = false <-> ~ phone_pattern (replace_whitespace phone)).
Proof.
  assert (H : isValidPhone phone = true
              <-> phone_pattern (replace_whitespace phone)).
  { unfold isValidPhone. rewrite test_phoneRegex.
    set (c := replace_whitespace phone). split.
    - intros H.
      assert (Hpre : forall p, In p [js "+234"; js "234"; js "0"; []] ->
                startsWith c p && is_local_number (substring c (List.length p))
                = true -> phone_pattern c).
      { intros p Hp Hc. apply andb_true_iff in Hc. destruct Hc as [Hs Hl].
        apply is_local_number_spec in Hl.
        destruct Hl as (d1 & d2 & rest & E & Hl).
        exists p, d1, d2, rest. split; [|split; [exact Hp | exact Hl]].
        rewrite <- E. apply startsWith_split; assumption. }
      repeat (apply orb_true_iff in H; destruct H as [H | H]).
      + apply (Hpre (js "+234")); [simpl; auto | exact H].
      + apply (Hpre (js "234")); [simpl; auto | exact H].
      + apply (Hpre (js "0")); [simpl; auto | exact H].
      + apply (Hpre []); [simpl; auto | exact H].
    - intros (p & d1 & d2 & rest & E & Hp & Hl).
      assert (Hloc : is_local_number (d1 :: d2 :: rest) = true).
      { apply is_local_number_spec. exists d1, d2, rest. auto. }
      clear Hl. rewrite E.
      pose proof (startsWith_prefix p (d1 :: d2 :: rest)) as Hs.
      pose proof (substring_app p (d1 :: d2 :: rest)) as Hsub.
      destruct Hp as [<- | [<- | [<- | [<- | []]]]].
      + change (List.length (js "+234")) with 4%nat in Hsub.
        rewrite Hs, Hsub, Hloc. reflexivity.
      + change (List.length (js "234")) with 3%nat in Hsub.
        rewrite Hs, Hsub, Hloc. cbn [andb]. rewrite !orb_true_r. reflexivity.
      + change (List.length (js "0")) with 1%nat in Hsub.
        rewrite Hs, Hsub, Hloc. cbn [andb]. rewrite !orb_true_r. reflexivity.
      + cbn [app]. rewrite Hloc. apply orb_true_r. }
  split; [exact H|].
  rewrite <- H. destruct (isValidPhone phone); split; congruence.
Qed.

Lemma isValidPhone_iff_pattern_witness :
  phone_pattern (replace_whitespace (js "+234 801 234 5678"))
  /\ ~ phone_pattern (replace_whitespace (js "12345")).
Proof.
  split.
  - apply (isValidPhone_iff_pattern (js "+234 801 234 5678")). reflexivity.
  - apply (isValidPhone_iff_pattern (js "12345")). reflexivity.
Defined.

(** ** formatPhone *)

Lemma is_digit_not_whitespace (c : code_unit) :
  is_digit c = true -> is_whitespace c = false.
Proof.
  unfold is_digit, is_whitespace. intros H.
  apply andb_true_iff in H. destruct H as [H1 H2].
  apply N.leb_le in H1, H2. cbn [existsb].
  repeat match goal with
         | |- context [N.eqb c ?k] =>
             replace (N.eqb c k) with false
               by (symmetry; apply N.eqb_neq; lia)
         end.
  replace (8192 <=? c)%N with false by (symmetry; apply N.leb_gt; lia).
  reflexivity.
Qed.

Lemma replace_whitespace_digits (s : jsstring) :
  forallb is_digit s = true -> replace_whitespace s = s.
Proof.
  unfold replace_whitespace. induction s as [|c s IH]; simpl; [reflexivity|].
  intros H. apply andb_true_iff in H. destruct H as [Hc Hs].
  rewrite (is_digit_not_whitespace _ Hc). simpl. rewrite IH; auto.
Qed.

Lemma replace_whitespace_clean (s : jsstring) :
  Forall (fun c => is_whitespace c = false) (replace_whitespace s).
Proof.
  apply Forall_forall. intros c Hc. apply filter_In in Hc.
  destruct Hc as [_ Hc]. apply negb_true_iff in Hc. exact Hc.
Qed.

Lemma is_local_number_digits (s : jsstring) :
  is_local_number s = true ->
  forallb is_digit s = true /\ List.length s = 10%nat.
Proof.
  intros H. apply is_local_number_spec in H.
  destruct H as (d1 & d2 & rest & -> & H1 & H2 & Hlen & Hrest).
  split; [|simpl; rewrite Hlen; reflexivity].
  cbn [forallb]. rewrite !andb_true_iff. repeat split.
  - cbn in H1. destruct H1 as [<- | [<- | [<- | []]]]; reflexivity.
  - cbn in H2. destruct H2 as [<- | [<- | []]]; reflexivity.
  - apply forallb_forall. apply Forall_forall. exact Hrest.
Qed.

(** Two prefixes of one string begin with the same character. *)
Lemma startsWith_same_head (s p q : jsstring) (x y : code_unit) :
  startsWith s (x :: p) = true -> startsWith s (y :: q) = true -> x = y.
Proof.
  destruct s as [|d s]; simpl; [discriminate|].
  rewrite !andb_true_iff, !N.eqb_eq. intros [<- _] [<- _]. reflexivity.
Qed.

(** A local number begins with 7, 8 or 9. *)
Lemma local_number_head (s p : jsstring) (x : code_unit) :
  startsWith s (x :: p) = true -> is_local_number s = true ->
  In x (js "789").
Proof.
  intros Hs Hl. apply is_local_number_spec in Hl.
  destruct Hl as (d1 & d2 & rest & -> & H1 & _).
  simpl in Hs. apply andb_true_iff in Hs. destruct Hs as [Hs _].
  apply N.eqb_eq in Hs. subst. exact H1.
Qed.

Lemma local_number_no_prefix (s p : jsstring) (x : code_unit) :
  ~ In x (js "789") -> is_local_number s = true ->
  startsWith s (x :: p) = false.
Proof.
  intros Hx Hl. destruct (startsWith s (x :: p)) eqn:E; [|reflexivity].
  exfalso. apply Hx. apply (local_number_head _ _ _ E Hl).
Qed.

Lemma not_in_789 (x : code_unit) :
  existsb (N.eqb x) (js "789") = false -> ~ In x (js "789").
Proof. intros H Hin. apply existsb_eqb_In in Hin. congruence. Qed.

(** formatPhone leaves a local number as it is. *)
Lemma formatPhone_local_number (s : jsstring) :
  is_local_number s = true -> formatPhone s = s.
Proof.
  intros Hl. unfold formatPhone.
  rewrite (replace_whitespace_digits _ (proj1 (is_local_number_digits _ Hl))).
  cbv zeta.
  change (js "+234") with (@cons code_unit 43%N (js "234")).
  rewrite (@local_number_no_prefix s (js "234") 43%N)
    by auto using not_in_789.
  change (js "234") with (@cons code_unit 50%N (js "34")).
  rewrite (@local_number_no_prefix s (js "34") 50%N)
    by auto using not_in_789.
  change (js "0") with (@cons code_unit 48%N []).
  rewrite (@local_number_no_prefix s [] 48%N) by auto using not_in_789.
  reflexivity.
Qed.

(** What formatPhone computes, in terms of prefix removal. *)
Lemma formatPhone_drop_first_prefix (phone : jsstring) :
  formatPhone phone
  = drop_first_prefix [js "+234"; js "234"; js "0"]
      (replace_whitespace phone).
Proof.
  unfold formatPhone, drop_first_prefix.
  rewrite !remove_prefix_startsWith.
  destruct (startsWith _ (js "+234")); [reflexivity|].
  destruct (startsWith _ (js "234")); [reflexivity|].
  destruct (startsWith _ (js "0")); reflexivity.
Qed.

(** C8: formatPhone removes every whitespace character and then the first
    of the prefixes "+234", "234", "0" that the result begins with (4, 3 or
    1 characters), or nothing when it begins with none of them; it is a
    total function that looks at nothing else, and it returns a 10-digit
    local number as it is. *)
Theorem formatPhone_spec (phone s : jsstring) :
  let cleaned := replace_whitespace phone in
  Forall (fun c => is_whitespace c = false) cleaned
  /\ (is_local_number s = true ->
      formatPhone s = s /\ formatPhone (formatPhone s) = formatPhone s)
  /\ formatPhone phone
     = drop_first_prefix [js "+234"; js "234"; js "0"] cleaned
  /\ (forall rest, cleaned = js "+234" ++ rest -> formatPhone phone = rest)
  /\ (forall rest, startsWith cleaned (js "+234") = false ->
        cleaned = js "234" ++ rest -> formatPhone phone = rest)
  /\ (forall rest, startsWith cleaned (js "+234") = false ->
        startsWith cleaned (js "234") = false ->
        cleaned = js "0" ++ rest -> formatPhone phone = rest)
  /\ (startsWith cleaned (js "+234") = false ->
      startsWith cleaned (js "234") = false ->
      startsWith cleaned (js "0") = false -> formatPhone phone = cleaned).
Proof.
  intros cleaned.
  split; [apply replace_whitespace_clean|].
  split; [intros H; rewrite !formatPhone_local_number; auto|].
  split; [apply formatPhone_drop_first_prefix|].
  unfold formatPhone. fold cleaned. cbv zeta.
  repeat split.
  - intros rest E. rewrite E, startsWith_prefix.
    apply (substring_app (js "+234")).
  - intros rest -> E. rewrite E, startsWith_prefix.
    apply (substring_app (js "234")).
  - intros rest -> -> E. rewrite E, startsWith_prefix.
    apply (substring_app (js "0")).
  - intros -> -> ->. reflexivity.
Qed.

Lemma formatPhone_spec_witness :
  formatPhone (js "8012345678") = js "8012345678"
  /\ formatPhone (js " +234 801 234 5678") = js "8012345678"
  /\ formatPhone (js "2348012345678") = js "8012345678"
  /\ formatPhone (js "08012345678") = js "8012345678"
  /\ formatPhone (js "call me") = js "callme".
Proof.
  destruct (formatPhone_spec (js " +234 801 234 5678") (js "8012345678"))
    as (_ & Hlocal & _ & Hplus & _).
  destruct (formatPhone_spec (js "2348012345678") [])
    as (_ & _ & _ & _ & Hcountry & _).
  destruct (formatPhone_spec (js "08012345678") [])
    as (_ & _ & _ & _ & _ & Hzero & _).
  destruct (formatPhone_spec (js "call me") [])
    as (_ & _ & _ & _ & _ & _ & Hnone).
  repeat apply conj.
  - apply Hlocal. reflexivity.
  - apply Hplus. reflexivity.
  - apply Hcountry; reflexivity.
  - apply Hzero; reflexivity.
  - apply Hnone; reflexivity.
Defined.

(** C9: when isValidPhone accepts a string, formatPhone turns it into a
    string of exactly ten digits that begins with a digit among 7, 8, 9
    followed by a digit among 0, 1; that string is accepted by isValidPhone
    and is left unchanged by formatPhone. *)
Theorem formatPhone_of_valid (phone : jsstring) :
  isValidPhone phone = true ->
  is_local_number (formatPhone phone) = true
  /\ List.length (formatPhone phone) = 10%nat
  /\ forallb is_digit (formatPhone phone) = true
  /\ (exists d1 d2 rest, formatPhone phone = d1 :: d2 :: rest
        /\ In d1 (js "789") /\ In d2 (js "01"))
  /\ isValidPhone (formatPhone phone) = true
  /\ formatPhone (formatPhone phone) = formatPhone phone.
Proof.
  intros Hvalid.
  assert (Hl : is_local_number (formatPhone phone) = true).
  { unfold isValidPhone in Hvalid. rewrite test_phoneRegex in Hvalid.
    unfold formatPhone. set (c := replace_whitespace phone) in *. cbv zeta.
    assert (Hhead : forall (x : code_unit) (p : jsstring),
              existsb (N.eqb x) (js "789") = false ->
              startsWith c (x :: p) = true -> is_local_number c = false).
    { intros x p Hx Hs. destruct (is_local_number c) eqn:E; [|reflexivity].
      rewrite (@local_number_no_prefix c p x (@not_in_789 x Hx) E) in Hs.
      discriminate. }
    destruct (startsWith c (js "+234")) eqn:E1.
    { rewrite (Hhead 43%N (js "234") eq_refl E1) in Hvalid.
      destruct (startsWith c (js "234")) eqn:E2.
      { discriminate (@startsWith_same_head _ _ _ _ _ E1 E2). }
      destruct (startsWith c (js "0")) eqn:E3.
      { discriminate (@startsWith_same_head _ _ _ _ _ E1 E3). }
      cbn [andb] in Hvalid. rewrite !orb_false_r in Hvalid. exact Hvalid. }
    destruct (startsWith c (js "234")) eqn:E2.
    { rewrite (Hhead 50%N (js "34") eq_refl E2) in Hvalid.
      destruct (startsWith c (js "0")) eqn:E3.
      { discriminate (@startsWith_same_head _ _ _ _ _ E2 E3). }
      cbn [andb orb] in Hvalid. rewrite !orb_false_r in Hvalid.
      exact Hvalid. }
    destruct (startsWith c (js "0")) eqn:E3.
    { rewrite (Hhead 48%N [] eq_refl E3) in Hvalid.
      cbn [andb orb] in Hvalid. rewrite !orb_false_r in Hvalid.
      exact Hvalid. }
    exact Hvalid. }
  destruct (is_local_number_digits _ Hl) as [Hdigits Hlen].
  repeat split; auto.
  - apply is_local_number_spec in Hl.
    destruct Hl as (d1 & d2 & rest & E & H1 & H2 & _).
    exists d1, d2, rest. auto.
  - unfold isValidPhone.
    rewrite (replace_whitespace_digits _ Hdigits), test_phoneRegex, Hl.
    apply orb_true_r.
  - apply formatPhone_local_number; assumption.
Qed.

Lemma formatPhone_of_valid_witness :
  is_local_number (formatPhone (js "+234 801 234 5678")) = true
  /\ isValidPhone (formatPhone (js "+234 801 234 5678")) = true
  /\ formatPhone (formatPhone (js "+234 801 234 5678"))
     = formatPhone (js "+234 801 234 5678").
Proof.
  destruct (formatPhone_of_valid (js "+234 801 234 5678") eq_refl)
    as (H1 & _ & _ & _ & H2 & H3).
  auto.
Defined.

(** ** The examples of the specification *)

Example isValidPhone_local : isValidPhone (js "08012345678") = true.
Proof. reflexivity. Qed.

Example isValidPhone_short : isValidPhone (js "12345") = false.
Proof. reflexivity. Qed.

Example isValidPhone_spaced : isValidPhone (js " +234 801 234 5678 ") = true.
Proof. reflexivity. Qed.

Example isValidPhone_trailing : isValidPhone (js "08012345678x") = false.
Proof. reflexivity. Qed.

Example isValidPhone_bad_second : isValidPhone (js "08212345678") = false.
Proof. reflexivity. Qed.

(** Outside the local numbers formatPhone need not be idempotent: each call
    removes one more leading zero. *)
Example formatPhone_zeros :
  formatPhone (js "00") = js "0" /\ formatPhone (js "0") = [].
Proof. split; reflexivity. Qed.

Example purchaseAirtime_fraction :
  purchaseAirtime (airtime_params "mtn" (99 # 2))
  = Throw (mkError "Amount must be between 50 and 50000 NGN").
Proof. reflexivity. Qed.

Example purchaseAirtime_NaN :
  purchaseAirtime
    (AirtimePurchaseParams.mk (Some (js "mtn")) (Some (js "08012345678"))
       (Some NaN) (Some (js "100")) None None)
  = Throw (mkError
      "networkOperator, phone, amount, and maxAmount are required").
Proof. reflexivity. Qed.

(* ================================================================= *)
(** * Further properties of the phone utilities *)

Lemma replace_whitespace_app (a b : jsstring) :
  replace_whitespace (a ++ b) = replace_whitespace a ++ replace_whitespace b.
Proof. apply filter_app. Qed.

Lemma replace_whitespace_idem (s : jsstring) :
  replace_whitespace (replace_whitespace s) = replace_whitespace s.
Proof.
  unfold replace_whitespace. induction s as [|c s IH]; simpl; [reflexivity|].
  destruct (is_whitespace c) eqn:E; simpl; [exact IH|].
  rewrite E. simpl. rewrite IH. reflexivity.
Qed.

Lemma replace_whitespace_length (s : jsstring) :
  (List.length (replace_whitespace s) <= List.length s)%nat.
Proof.
  unfold replace_whitespace. induction s as [|c s IH]; simpl; [lia|].
  destruct (negb (is_whitespace c)); simpl; lia.
Qed.

Lemma replace_whitespace_fixed (s : jsstring) :
  replace_whitespace s = s <-> Forall (fun c => is_whitespace c = false) s.
Proof.
  split.
  - intros E. rewrite <- E. apply replace_whitespace_clean.
  - unfold replace_whitespace. induction 1 as [|c s Hc Hs IH]; simpl;
      [reflexivity|]. rewrite Hc. simpl. rewrite IH. reflexivity.
Qed.

(** The four branches of formatPhone. *)
Lemma formatPhone_cases (phone : jsstring) :
  let cleaned := replace_whitespace phone in
  (startsWith cleaned (js "+234") = true
   /\ cleaned = js "+234" ++ formatPhone phone)
  \/ (startsWith cleaned (js "+234") = false
      /\ startsWith cleaned (js "234") = true
      /\ cleaned = js "234" ++ formatPhone phone)
  \/ (startsWith cleaned (js "+234") = false
      /\ startsWith cleaned (js "234") = false
      /\ startsWith cleaned (js "0") = true
      /\ cleaned = js "0" ++ formatPhone phone)
  \/ (startsWith cleaned (js "+234") = false
      /\ startsWith cleaned (js "234") = false
      /\ startsWith cleaned (js "0") = false
      /\ cleaned = formatPhone phone).
Proof.
  intros cleaned. unfold formatPhone. fold cleaned. cbv zeta.
  destruct (startsWith cleaned (js "+234")) eqn:E1.
  { left. split; [reflexivity|]. apply (startsWith_split _ _ E1). }
  destruct (startsWith cleaned (js "234")) eqn:E2.
  { right; left. repeat split. apply (startsWith_split _ _ E2). }
  destruct (startsWith cleaned (js "0")) eqn:E3.
  { right; right; left. repeat split. apply (startsWith_split _ _ E3). }
  right; right; right. repeat split.
Qed.

(** X1: whitespace never matters to the phone utilities: inserting a
    whitespace character anywhere changes neither the verdict of
    isValidPhone nor the result of formatPhone, and both give on a string
    what they give on the string without its whitespace. *)
Theorem phone_utilities_ignore_whitespace (a b : jsstring) (c : code_unit) :
  is_whitespace c = true ->
  isValidPhone (a ++ c :: b) = isValidPhone (a ++ b)
  /\ formatPhone (a ++ c :: b) = formatPhone (a ++ b)
  /\ isValidPhone (replace_whitespace (a ++ c :: b)) = isValidPhone (a ++ b)
  /\ formatPhone (replace_whitespace (a ++ c :: b)) = formatPhone (a ++ b).
Proof.
  intros Hc.
  assert (E : replace_whitespace (a ++ c :: b) = replace_whitespace (a ++ b)).
  { rewrite !replace_whitespace_app. f_equal.
    unfold replace_whitespace. simpl. rewrite Hc. reflexivity. }
  unfold isValidPhone, formatPhone.
  rewrite !replace_whitespace_idem, !E. auto.
Qed.

Lemma phone_utilities_ignore_whitespace_witness :
  isValidPhone (js "0801 2345678") = isValidPhone (js "08012345678")
  /\ formatPhone (js "0801 2345678") = formatPhone (js "08012345678").
Proof.
  destruct (phone_utilities_ignore_whitespace (js "0801") (js "2345678")
              32%N eq_refl) as (H1 & H2 & _).
  split; assumption.
Defined.

Lemma prefix_no_whitespace (p : jsstring) :
  In p [js "+234"; js "234"; js "0"; []] ->
  Forall (fun c => is_whitespace c = false) p.
Proof.
  intros [<- | [<- | [<- | [<- | []]]]]; repeat constructor.
Qed.

Lemma digits_no_whitespace (s : jsstring) :
  forallb is_digit s = true -> Forall (fun c => is_whitespace c = false) s.
Proof.
  intros H. apply Forall_forall. intros c Hc.
  apply is_digit_not_whitespace.
  rewrite forallb_forall in H. apply H; assumption.
Qed.

(** X2: the four spellings of a number lead back to it: for a 10-digit
    local number and each of the prefixes "+234", "234", "0" and none, the
    prefixed string is accepted by isValidPhone and formatPhone returns the
    local number. *)
Theorem formatPhone_round_trip (prefix local : jsstring) :
  is_local_number local = true ->
  In prefix [js "+234"; js "234"; js "0"; []] ->
  isValidPhone (prefix ++ local) = true
  /\ formatPhone (prefix ++ local) = local.
Proof.
  intros Hl Hp.
  assert (Hclean : replace_whitespace (prefix ++ local) = prefix ++ local).
  { apply replace_whitespace_fixed. apply Forall_app. split.
    - apply prefix_no_whitespace; assumption.
    - apply digits_no_whitespace. apply is_local_number_digits; assumption. }
  pose proof (startsWith_prefix prefix local) as Hs.
  pose proof (substring_app prefix local) as Hsub.
  split.
  - unfold isValidPhone. rewrite Hclean, test_phoneRegex.
    destruct Hp as [<- | [<- | [<- | [<- | []]]]].
    + change (List.length (js "+234")) with 4%nat in Hsub.
      rewrite Hs, Hsub, Hl. reflexivity.
    + change (List.length (js "234")) with 3%nat in Hsub.
      rewrite Hs, Hsub, Hl. cbn [andb]. rewrite !orb_true_r. reflexivity.
    + change (List.length (js "0")) with 1%nat in Hsub.
      rewrite Hs, Hsub, Hl. cbn [andb]. rewrite !orb_true_r. reflexivity.
    + cbn [app]. rewrite Hl. apply orb_true_r.
  - destruct Hp as [<- | [<- | [<- | [<- | []]]]];
      [| | | apply formatPhone_local_number; assumption];
      unfold formatPhone; rewrite Hclean; cbv zeta.
    + change (List.length (js "+234")) with 4%nat in Hsub.
      rewrite Hs. exact Hsub.
    + change (List.length (js "234")) with 3%nat in Hsub.
      change (startsWith (js "234" ++ local) (js "+234")) with false.
      cbv iota. rewrite Hs. exact Hsub.
    + change (List.length (js "0")) with 1%nat in Hsub.
      change (startsWith (js "0" ++ local) (js "+234")) with false.
      change (startsWith (js "0" ++ local) (js "234")) with false.
      cbv iota. rewrite Hs. exact Hsub.
Qed.

Lemma formatPhone_round_trip_witness :
  isValidPhone (js "2348031234567") = true
  /\ formatPhone (js "2348031234567") = js "8031234567".
Proof.
  apply (@formatPhone_round_trip (js "234") (js "8031234567"));
    [reflexivity | simpl; auto].
Defined.

Lemma prefixed_local_shape (c p : jsstring) :
  startsWith c p = true ->
  is_local_number (substring c (List.length p)) = true ->
  List.length c = (List.length p + 10)%nat
  /\ exists l, c = p ++ l /\ forallb is_digit l = true.
Proof.
  intros Hs Hl. apply startsWith_split in Hs.
  destruct (is_local_number_digits _ Hl) as [Hd Hlen].
  split.
  - rewrite Hs at 1. rewrite length_app, Hlen. reflexivity.
  - exists (substring c (List.length p)). split; assumption.
Qed.

(** X3: isValidPhone accepts digits only: once the whitespace is removed,
    an accepted string has 10, 11, 13 or 14 characters and consists of
    digits, but for a plus sign that may come first. *)
Theorem isValidPhone_digits_only (phone : jsstring) :
  isValidPhone phone = true ->
  let cleaned := replace_whitespace phone in
  In (List.length cleaned) [10; 11; 13; 14]%nat
  /\ (forallb is_digit cleaned = true
      \/ exists rest, cleaned = 43%N :: rest /\ forallb is_digit rest = true).
Proof.
  unfold isValidPhone. rewrite test_phoneRegex. intros H. cbv zeta.
  set (cleaned := replace_whitespace phone) in *.
  repeat (apply orb_true_iff in H; destruct H as [H | H]);
    try (apply andb_true_iff in H; destruct H as [Hs Hl]).
  - destruct (@prefixed_local_shape cleaned (js "+234") Hs Hl)
      as (Hlen & l & E & Hd).
    split; [rewrite Hlen; simpl; auto|].
    right. exists (js "234" ++ l). split; [exact E|].
    rewrite forallb_app, Hd. reflexivity.
  - destruct (@prefixed_local_shape cleaned (js "234") Hs Hl)
      as (Hlen & l & E & Hd).
    split; [rewrite Hlen; simpl; auto|].
    left. rewrite E, forallb_app, Hd. reflexivity.
  - destruct (@prefixed_local_shape cleaned (js "0") Hs Hl)
      as (Hlen & l & E & Hd).
    split; [rewrite Hlen; simpl; auto|].
    left. rewrite E, forallb_app, Hd. reflexivity.
  - destruct (is_local_number_digits _ H) as [Hd Hlen].
    split; [rewrite Hlen; simpl; auto | left; exact Hd].
Qed.

Lemma isValidPhone_digits_only_witness :
  In (List.length (replace_whitespace (js "+234 803 123 4567")))
     [10; 11; 13; 14]%nat.
Proof.
  apply (isValidPhone_digits_only (js "+234 803 123 4567") eq_refl).
Defined.

(** X4: the strings that formatPhone returns unchanged are exactly those
    that hold no whitespace and begin with none of "+234", "234" and
    "0". *)
Theorem formatPhone_fixed_points (s : jsstring) :
  formatPhone s = s
  <-> Forall (fun c => is_whitespace c = false) s
      /\ startsWith s (js "+234") = false
      /\ startsWith s (js "234") = false
      /\ startsWith s (js "0") = false.
Proof.
  pose proof (replace_whitespace_length s) as Hlen.
  split.
  - intros E.
    destruct (formatPhone_cases s)
      as [(_ & H) | [(_ & _ & H) | [(_ & _ & _ & H) | (H1 & H2 & H3 & H)]]];
      rewrite E in H.
    + rewrite H, length_app in Hlen. simpl in Hlen. lia.
    + rewrite H, length_app in Hlen. simpl in Hlen. lia.
    + rewrite H, length_app in Hlen. simpl in Hlen. lia.
    + rewrite H in H1, H2, H3.
      split; [apply replace_whitespace_fixed; exact H | auto].
  - intros (Hws & H1 & H2 & H3). apply replace_whitespace_fixed in Hws.
    unfold formatPhone. rewrite Hws. cbv zeta. rewrite H1, H2, H3.
    reflexivity.
Qed.

Lemma formatPhone_fixed_points_witness :
  formatPhone (js "7012345678") = js "7012345678"
  /\ formatPhone (js "08031234567") <> js "08031234567".
Proof.
  split.
  - apply (formatPhone_fixed_points (js "7012345678")).
    repeat split. repeat constructor.
  - intros H. apply (formatPhone_fixed_points (js "08031234567")) in H.
    destruct H as (_ & _ & _ & H). discriminate H.
Defined.

(** X5: formatPhone only removes: its result is what is left of the input,
    whitespace removed, after one of "+234", "234", "0" or nothing is taken
    from the front; the result holds no whitespace and is never longer than
    the input. *)
Theorem formatPhone_suffix (phone : jsstring) :
  exists dropped,
    replace_whitespace phone = dropped ++ formatPhone phone
    /\ In dropped [js "+234"; js "234"; js "0"; []]
    /\ Forall (fun c => is_whitespace c = false) (formatPhone phone)
    /\ (List.length (formatPhone phone) <= List.length phone)%nat.
Proof.
  pose proof (replace_whitespace_length phone) as Hlen.
  pose proof (replace_whitespace_clean phone) as Hclean.
  assert (Hdrop : exists dropped,
             replace_whitespace phone = dropped ++ formatPhone phone
             /\ In dropped [js "+234"; js "234"; js "0"; []]).
  { destruct (formatPhone_cases phone)
      as [(_ & H) | [(_ & _ & H) | [(_ & _ & _ & H) | (_ & _ & _ & H)]]].
    - exists (js "+234"). split; [exact H | simpl; auto].
    - exists (js "234"). split; [exact H | simpl; auto].
    - exists (js "0"). split; [exact H | simpl; auto].
    - exists []. split; [exact H | simpl; auto]. }
  destruct Hdrop as (dropped & E & Hin).
  exists dropped. split; [exact E|]. split; [exact Hin|].
  rewrite E in Hclean, Hlen. apply Forall_app in Hclean.
  rewrite length_app in Hlen. split; [apply Hclean | lia].
Qed.

(* ================================================================= *)
(** * Further properties of the purchase operations *)

Lemma Qlt_bool_ge (x y : Q) : Qlt_bool x y = false <-> (y <= x)%Q.
Proof. unfold Qlt_bool, Qle. rewrite Z.ltb_ge. reflexivity. Qed.

Lemma amount_in_range_checks (amount : option number) :
  amount_in_range amount
  <-> truthy amount = true
      /\ number_lt (to_number amount) (Finite 50) = false
      /\ number_gt (to_number amount) (Finite 50000) = false.
Proof.
  unfold amount_in_range. split.
  - intros (q & -> & Hlo & Hhi). cbn [to_number number_gt number_lt].
    rewrite !Qlt_bool_ge. repeat split; try assumption.
    cbn. apply negb_true_iff. destruct (Qeq_bool q 0) eqn:E; [|reflexivity].
    apply Qeq_bool_eq in E. rewrite E in Hlo. exfalso.
    apply (Qle_not_lt _ _ Hlo). reflexivity.
  - intros (Ht & Hlo & Hhi). destruct amount as [[| |q|]|]; try discriminate.
    cbn [to_number number_gt number_lt] in Hlo, Hhi.
    rewrite Qlt_bool_ge in Hlo, Hhi. exists q. auto.
Qed.

(** What purchaseAirtime does, by the outcome of its three checks. *)
Lemma purchaseAirtime_cases (params : AirtimePurchaseParams.t) :
  let operator := AirtimePurchaseParams.networkOperator params in
  let phone := AirtimePurchaseParams.phone params in
  let amount := AirtimePurchaseParams.amount params in
  let maxAmount := AirtimePurchaseParams.maxAmount params in
  (rejects (purchaseAirtime params)
   /\ ~ (truthy operator = true /\ truthy phone = true
         /\ truthy amount = true /\ truthy maxAmount = true
         /\ includes_opt operators operator = true
         /\ number_lt (to_number amount) (Finite 50) = false
         /\ number_gt (to_number amount) (Finite 50000) = false))
  \/ (truthy operator = true /\ truthy phone = true
      /\ truthy amount = true /\ truthy maxAmount = true
      /\ includes_opt operators operator = true
      /\ number_lt (to_number amount) (Finite 50) = false
      /\ number_gt (to_number amount) (Finite 50000) = false
      /\ purchaseAirtime params
         = makeRequest "/airtime" "POST"
             (Some
                ([("network_operator", of_string operator);
                  ("phone", of_string phone);
                  ("amount", of_number amount);
                  ("max_amount", of_string maxAmount)]
                 ++ spread_if
                      (truthy (AirtimePurchaseParams.callbackUrl params))
                      [("callback_url",
                        of_string (AirtimePurchaseParams.callbackUrl params))]
                 ++ spread_if
                      (truthy (AirtimePurchaseParams.customerReference params))
                      [("customer_reference",
                        of_string
                          (AirtimePurchaseParams.customerReference params))]))
             (fun r => Return (APIResponse.data r))).
Proof.
  destruct params as [op ph am mx cb cr].
  cbn [AirtimePurchaseParams.networkOperator AirtimePurchaseParams.phone
       AirtimePurchaseParams.amount AirtimePurchaseParams.maxAmount
       AirtimePurchaseParams.callbackUrl
       AirtimePurchaseParams.customerReference].
  unfold purchaseAirtime.
  destruct (truthy op) eqn:E1; cbn [negb orb];
    [|left; split; [apply rejects_Throw; simpl; auto | intros (H & _);
                    discriminate]].
  destruct (truthy ph) eqn:E2; cbn [negb orb];
    [|left; split; [apply rejects_Throw; simpl; auto | intros (_ & H & _);
                    discriminate]].
  destruct (truthy am) eqn:E3; cbn [negb orb];
    [|left; split; [apply rejects_Throw; simpl; auto
                   | intros (_ & _ & H & _); discriminate]].
  destruct (truthy mx) eqn:E4; cbn [negb orb];
    [|left; split; [apply rejects_Throw; simpl; auto
                   | intros (_ & _ & _ & H & _); discriminate]].
  destruct (includes_opt operators op) eqn:E5; cbn [negb];
    [|left; split; [apply rejects_Throw; simpl; auto
                   | intros (_ & _ & _ & _ & H & _); discriminate]].
  destruct (number_lt (to_number am) (Finite 50)) eqn:E6; cbn [orb];
    [left; split; [apply rejects_Throw; simpl; auto
                  | intros (_ & _ & _ & _ & _ & H & _); discriminate]|].
  destruct (number_gt (to_number am) (Finite 50000)) eqn:E7;
    [left; split; [apply rejects_Throw; simpl; auto
                  | intros (_ & _ & _ & _ & _ & _ & H); discriminate]|].
  right. repeat split.
Qed.

Lemma truthy_non_empty (o : option jsstring) :
  truthy o = true <-> non_empty o.
Proof.
  unfold non_empty. split.
  - destruct o as [[|c s]|]; try discriminate.
    intros _. exists (c :: s). split; [reflexivity | discriminate].
  - intros (s & -> & Hs). apply truthy_nonempty; assumption.
Qed.

Lemma includes_opt_In (l : list jsstring) (o : option jsstring) :
  includes_opt l o = true <-> exists x, o = Some x /\ In x l.
Proof.
  destruct o as [x|]; simpl.
  - rewrite includes_In. split; [eauto | intros (y & E & H); congruence].
  - split; [discriminate | intros (y & E & _); discriminate].
Qed.

Lemma airtime_valid_checks (params : AirtimePurchaseParams.t) :
  airtime_valid params
  <-> truthy (AirtimePurchaseParams.networkOperator params) = true
      /\ truthy (AirtimePurchaseParams.phone params) = true
      /\ truthy (AirtimePurchaseParams.amount params) = true
      /\ truthy (AirtimePurchaseParams.maxAmount params) = true
      /\ includes_opt operators (AirtimePurchaseParams.networkOperator params)
         = true
      /\ number_lt (to_number (AirtimePurchaseParams.amount params))
           (Finite 50) = false
      /\ number_gt (to_number (AirtimePurchaseParams.amount params))
           (Finite 50000) = false.
Proof.
  unfold airtime_valid.
  rewrite <- includes_opt_In, <- !truthy_non_empty, amount_in_range_checks.
  split.
  - intros (Hop & Hph & (Ham & Hlo & Hhi) & Hmx). repeat split; auto.
    destruct (AirtimePurchaseParams.networkOperator params) as [op|];
      [|discriminate].
    cbn [includes_opt] in Hop. apply includes_In in Hop.
    apply truthy_nonempty. intros ->. simpl in Hop.
    destruct Hop as [H | [H | [H | [H | []]]]]; discriminate.
  - intros (_ & Hph & Ham & Hmx & Hop & Hlo & Hhi). auto 10.
Qed.

(** X6: purchaseAirtime accepts exactly the well-formed purchases: an
    operator among the four, a non-empty phone, an amount from 50 to 50000
    with both bounds allowed, and a non-empty maxAmount.  Such a call makes
    one POST to /airtime whose body carries the four values unchanged;
    every other call is rejected by validation before any request. *)
Theorem purchaseAirtime_validation_is_exact (params : AirtimePurchaseParams.t) :
  (airtime_valid params ->
   exists b,
     (forall net, requests net (purchaseAirtime params)
                  = [mkCall "/airtime" "POST" (Some b)])
     /\ get b "network_operator"
        = Some (of_string (AirtimePurchaseParams.networkOperator params))
     /\ get b "phone" = Some (of_string (AirtimePurchaseParams.phone params))
     /\ get b "amount" = Some (of_number (AirtimePurchaseParams.amount params))
     /\ get b "max_amount"
        = Some (of_string (AirtimePurchaseParams.maxAmount params)))
  /\ (~ airtime_valid params -> rejects (purchaseAirtime params)).
Proof.
  rewrite airtime_valid_checks.
  destruct (purchaseAirtime_cases params) as [[Hrej Hno] | H].
  - split; [intros Hv; contradiction | intros _; exact Hrej].
  - split.
    + intros _. destruct H as (_ & _ & _ & _ & _ & _ & _ & E).
      eexists. split; [intros net; rewrite E; apply requests_single|].
      repeat split.
    + intros Hno. exfalso. apply Hno.
      destruct H as (H1 & H2 & H3 & H4 & H5 & H6 & H7 & _). auto 10.
Qed.

Lemma purchaseAirtime_validation_is_exact_witness :
  (exists b,
     (forall net, requests net (purchaseAirtime (airtime_params "glo" 50))
                  = [mkCall "/airtime" "POST" (Some b)])
     /\ get b "amount" = Some (JNumber (Finite 50)))
  /\ (exists b,
        (forall net,
           requests net (purchaseAirtime (airtime_params "9mobile" 50000))
           = [mkCall "/airtime" "POST" (Some b)])
        /\ get b "amount" = Some (JNumber (Finite 50000)))
  /\ rejects (purchaseAirtime (airtime_params "mtn" (100001 # 2))).
Proof.
  assert (Hvalid : forall op q, In (js op) operators ->
            (50 <= q)%Q -> (q <= 50000)%Q ->
            airtime_valid (airtime_params op q)).
  { intros op q Hop Hlo Hhi. repeat split.
    - exists (js op). auto.
    - exists (js "08012345678"). split; [reflexivity | discriminate].
    - exists q. auto.
    - exists (js "100"). split; [reflexivity | discriminate]. }
  repeat apply conj.
  - destruct (purchaseAirtime_validation_is_exact (airtime_params "glo" 50))
      as [Hok _].
    destruct Hok as (b & Hreq & _ & _ & Ham & _).
    + apply Hvalid; [simpl; auto | discriminate | discriminate].
    + exists b. auto.
  - destruct (purchaseAirtime_validation_is_exact
                (airtime_params "9mobile" 50000)) as [Hok _].
    destruct Hok as (b & Hreq & _ & _ & Ham & _).
    + apply Hvalid; [simpl; auto | discriminate | discriminate].
    + exists b. auto.
  - apply (purchaseAirtime_validation_is_exact
             (airtime_params "mtn" (100001 # 2))).
    intros (_ & _ & (q & E & _ & Hhi) & _).
    injection E as <-. apply Hhi. reflexivity.
Defined.

(** The request of purchaseAirtime, when there is one. *)
Lemma purchaseAirtime_sends (params : AirtimePurchaseParams.t) net c :
  In c (requests net (purchaseAirtime params)) ->
  requests net (purchaseAirtime params) = [c]
  /\ c = mkCall "/airtime" "POST"
           (Some
              ([("network_operator",
                 of_string (AirtimePurchaseParams.networkOperator params));
                ("phone", of_string (AirtimePurchaseParams.phone params));
                ("amount", of_number (AirtimePurchaseParams.amount params));
                ("max_amount",
                 of_string (AirtimePurchaseParams.maxAmount params))]
               ++ spread_if
                    (truthy (AirtimePurchaseParams.callbackUrl params))
                    [("callback_url",
                      of_string (AirtimePurchaseParams.callbackUrl params))]
               ++ spread_if
                    (truthy (AirtimePurchaseParams.customerReference params))
                    [("customer_reference",
                      of_string
                        (AirtimePurchaseParams.customerReference params))])).
Proof.
  intros Hin.
  destruct (purchaseAirtime_cases params)
    as [[(msg & _ & E & _) _] | (_ & _ & _ & _ & _ & _ & _ & E)];
    rewrite E in Hin |- *.
  - contradiction.
  - rewrite requests_single in Hin |- *. destruct Hin as [<- | []].
    split; reflexivity.
Qed.

(** The request of purchaseData, when there is one. *)
Lemma purchaseData_sends (params : DataPurchaseParams.t) net c :
  In c (requests net (purchaseData params)) ->
  requests net (purchaseData params) = [c]
  /\ c = mkCall "/data" "POST"
           (Some
              ([("phone", of_string (DataPurchaseParams.phone params))]
               ++ spread_if (truthy (DataPurchaseParams.packageCode params))
                    [("package_code",
                      of_string (DataPurchaseParams.packageCode params))]
               ++ spread_if
                    (truthy (DataPurchaseParams.planId params)
                     && negb (truthy (DataPurchaseParams.packageCode params)))
                    [("plan_id",
                      of_number (DataPurchaseParams.planId params))]
               ++ spread_if (truthy (DataPurchaseParams.maxAmount params))
                    [("max_amount",
                      of_string (DataPurchaseParams.maxAmount params))]
               ++ spread_if (truthy (DataPurchaseParams.callbackUrl params))
                    [("callback_url",
                      of_string (DataPurchaseParams.callbackUrl params))]
               ++ spread_if
                    (truthy (DataPurchaseParams.customerReference params))
                    [("customer_reference",
                      of_string
                        (DataPurchaseParams.customerReference params))])).
Proof.
  destruct params as [ph pc pid mx cb cr].
  cbn [DataPurchaseParams.phone DataPurchaseParams.packageCode
       DataPurchaseParams.planId DataPurchaseParams.maxAmount
       DataPurchaseParams.callbackUrl DataPurchaseParams.customerReference].
  unfold purchaseData.
  destruct (negb (truthy ph)); [intros []|].
  destruct (negb (truthy pc) && negb (truthy pid)); [intros []|].
  cbn [bind]. rewrite requests_single. intros [<- | []].
  split; reflexivity.
Qed.

(** The request of vendDataFromWallet, when there is one. *)
Lemma vendDataFromWallet_sends (params : DataWalletVendParams.t) net c :
  In c (requests net (vendDataFromWallet params)) ->
  requests net (vendDataFromWallet params) = [c]
  /\ c = mkCall "/data/wallet" "POST"
           (Some
              ([("phone", of_string (DataWalletVendParams.phone params))]
               ++ spread_if
                    (truthy (DataWalletVendParams.packageCode params))
                    [("package_code",
                      of_string (DataWalletVendParams.packageCode params))]
               ++ spread_if
                    (truthy (DataWalletVendParams.planId params)
                     && negb (truthy
                                (DataWalletVendParams.packageCode params)))
                    [("plan_id",
                      of_number (DataWalletVendParams.planId params))]
               ++ spread_if
                    (truthy (DataWalletVendParams.processType params))
                    [("process_type",
                      of_string (DataWalletVendParams.processType params))]
               ++ spread_if
                    (truthy (DataWalletVendParams.callbackUrl params))
                    [("callback_url",
                      of_string (DataWalletVendParams.callbackUrl params))]
               ++ spread_if
                    (truthy (DataWalletVendParams.customerReference params))
                    [("customer_reference",
                      of_string
                        (DataWalletVendParams.customerReference params))])).
Proof.
  destruct params as [ph pc pid pt cb cr].
  cbn [DataWalletVendParams.phone DataWalletVendParams.packageCode
       DataWalletVendParams.planId DataWalletVendParams.processType
       DataWalletVendParams.callbackUrl
       DataWalletVendParams.customerReference].
  unfold vendDataFromWallet.
  destruct (negb (truthy ph)); [intros []|].
  destruct (negb (truthy pc) && negb (truthy pid)); [intros []|].
  destruct (truthy pt && negb (includes_opt processTypes pt)); [intros []|].
  cbn [bind]. rewrite requests_single. intros [<- | []].
  split; reflexivity.
Qed.

(** Reads one property of a body built by spreads. *)
Ltac lookup_field :=
  unfold optional_field;
  rewrite ?get_app, ?get_spread_if; cbn [get];
  repeat match goal with
         | |- context [String.eqb ?a ?b] =>
             let v := eval vm_compute in (String.eqb a b) in
             change (String.eqb a b) with v; cbn iota
         end;
  rewrite ?get_app, ?get_spread_if;
  repeat match goal with
         | |- context [spread_if ?c _] => destruct c; cbn [spread_if get]
         | |- context [if ?c then _ else _] => destruct c
         end;
  try reflexivity.

(** X7: the optional parameters of the three purchase operations reach the
    body exactly when they are non-empty strings: callback_url and
    customer_reference in all three, max_amount in purchaseData.  An
    optional parameter given as the empty string is left out like a missing
    one. *)
Theorem optional_fields_when_non_empty
        (pa : AirtimePurchaseParams.t) (pd : DataPurchaseParams.t)
        (pw : DataWalletVendParams.t) :
  (forall net c b,
     In c (requests net (purchaseAirtime pa)) -> body c = Some b ->
     optional_field b "callback_url" (AirtimePurchaseParams.callbackUrl pa)
     /\ optional_field b "customer_reference"
          (AirtimePurchaseParams.customerReference pa))
  /\ (forall net c b,
        In c (requests net (purchaseData pd)) -> body c = Some b ->
        optional_field b "max_amount" (DataPurchaseParams.maxAmount pd)
        /\ optional_field b "callback_url" (DataPurchaseParams.callbackUrl pd)
        /\ optional_field b "customer_reference"
             (DataPurchaseParams.customerReference pd))
  /\ (forall net c b,
        In c (requests net (vendDataFromWallet pw)) -> body c = Some b ->
        optional_field b "callback_url"
          (DataWalletVendParams.callbackUrl pw)
        /\ optional_field b "customer_reference"
             (DataWalletVendParams.customerReference pw)).
Proof.
  repeat apply conj; intros net c b Hin Hb.
  - destruct (purchaseAirtime_sends pa net c Hin) as [_ ->].
    cbn [body] in Hb. injection Hb as <-. split; lookup_field.
  - destruct (purchaseData_sends pd net c Hin) as [_ ->].
    cbn [body] in Hb. injection Hb as <-. repeat split; lookup_field.
  - destruct (vendDataFromWallet_sends pw net c Hin) as [_ ->].
    cbn [body] in Hb. injection Hb as <-. split; lookup_field.
Qed.

Lemma optional_fields_when_non_empty_witness :
  let params :=
    DataPurchaseParams.mk (Some (js "08012345678")) (Some (js "MTN-1GB")) None
      (Some (js "500")) (Some []) (Some (js "ref-1")) in
  let b := [("phone", JString (js "08012345678"));
            ("package_code", JString (js "MTN-1GB"));
            ("max_amount", JString (js "500"));
            ("customer_reference", JString (js "ref-1"))] in
  requests (offline _) (purchaseData params)
  = [mkCall "/data" "POST" (Some b)]
  /\ get b "max_amount" = Some (JString (js "500"))
  /\ get b "callback_url" = None
  /\ get b "customer_reference" = Some (JString (js "ref-1")).
Proof.
  intros params b. split; [reflexivity|].
  destruct (optional_fields_when_non_empty
              (airtime_params "mtn" 100) params (vend_params None None None))
    as (_ & Hd & _).
  apply (Hd (offline _) (mkCall "/data" "POST" (Some b)) b);
    [left; reflexivity | reflexivity].
Defined.

Ltac solve_keys :=
  cbn [spread_if app keys map fst andb negb orb];
  repeat apply conj;
  match goal with
  | |- NoDup _ =>
      repeat (constructor; [simpl; intuition discriminate|]); constructor
  | |- incl _ _ => intros k Hk; simpl in Hk |- *; intuition auto
  | |- _ => simpl; intuition (auto; try discriminate)
  end.

(** X8: every data request names exactly one plan identifier: the body of
    a request of purchaseData or vendDataFromWallet has package_code or
    plan_id and never both; it always has phone, has no property twice and
    none beyond those of the wire format; no two properties of the body of
    an airtime purchase coincide either and its four required properties
    are always there. *)
Theorem body_properties
        (pa : AirtimePurchaseParams.t) (pd : DataPurchaseParams.t)
        (pw : DataWalletVendParams.t) :
  (forall net c b,
     In c (requests net (purchaseAirtime pa)) -> body c = Some b ->
     NoDup (keys b)
     /\ incl ["network_operator"; "phone"; "amount"; "max_amount"] (keys b)
     /\ incl (keys b)
          ["network_operator"; "phone"; "amount"; "max_amount";
           "callback_url"; "customer_reference"])
  /\ (forall net c b,
        In c (requests net (purchaseData pd)) -> body c = Some b ->
        NoDup (keys b)
        /\ In "phone" (keys b)
        /\ (In "package_code" (keys b) <-> ~ In "plan_id" (keys b))
        /\ incl (keys b)
             ["phone"; "package_code"; "plan_id"; "max_amount";
              "callback_url"; "customer_reference"])
  /\ (forall net c b,
        In c (requests net (vendDataFromWallet pw)) -> body c = Some b ->
        NoDup (keys b)
        /\ In "phone" (keys b)
        /\ (In "package_code" (keys b) <-> ~ In "plan_id" (keys b))
        /\ incl (keys b)
             ["phone"; "package_code"; "plan_id"; "process_type";
              "callback_url"; "customer_reference"]).
Proof.
  repeat apply conj; intros net c b Hin Hb.
  - destruct (purchaseAirtime_sends pa net c Hin) as [_ ->].
    cbn [body] in Hb. injection Hb as <-.
    destruct (truthy (AirtimePurchaseParams.callbackUrl pa)),
             (truthy (AirtimePurchaseParams.customerReference pa));
      solve_keys.
  - destruct (purchaseData_request pd net c Hin Hb) as (_ & Hid & _).
    destruct (purchaseData_sends pd net c Hin) as [_ ->].
    cbn [body] in Hb. injection Hb as <-.
    destruct (truthy (DataPurchaseParams.packageCode pd)),
             (truthy (DataPurchaseParams.planId pd));
      try discriminate Hid;
      destruct (truthy (DataPurchaseParams.maxAmount pd)),
               (truthy (DataPurchaseParams.callbackUrl pd)),
               (truthy (DataPurchaseParams.customerReference pd));
      solve_keys.
  - destruct (vendDataFromWallet_request pw net c Hin Hb)
      as (_ & (Hid & _) & _).
    destruct (vendDataFromWallet_sends pw net c Hin) as [_ ->].
    cbn [body] in Hb. injection Hb as <-.
    destruct (truthy (DataWalletVendParams.packageCode pw)),
             (truthy (DataWalletVendParams.planId pw));
      try discriminate Hid;
      destruct (truthy (DataWalletVendParams.processType pw)),
               (truthy (DataWalletVendParams.callbackUrl pw)),
               (truthy (DataWalletVendParams.customerReference pw));
      solve_keys.
Qed.

Lemma body_properties_witness :
  let b := [("phone", JString (js "08012345678"));
            ("plan_id", JNumber (Finite 123))] in
  requests (offline _)
    (vendDataFromWallet (vend_params None (Some (Finite 123)) None))
  = [mkCall "/data/wallet" "POST" (Some b)]
  /\ NoDup (keys b)
  /\ (In "package_code" (keys b) <-> ~ In "plan_id" (keys b)).
Proof.
  intros b. split; [reflexivity|].
  destruct (body_properties (airtime_params "mtn" 100)
              (data_params None None)
              (vend_params None (Some (Finite 123)) None))
    as (_ & _ & Hw).
  destruct (Hw (offline _) (mkCall "/data/wallet" "POST" (Some b)) b)
    as (Hnodup & _ & Hone & _);
    [left; reflexivity | reflexivity | split; assumption].
Defined.

Lemma requests_makeRequest {T A} (net : network T) ep me d
      (k : APIResponse.t T -> prog T A) :
  (forall r, requests net (k r) = []) ->
  requests net (makeRequest ep me d k) = [mkCall ep me d].
Proof.
  intros Hk. unfold requests in *. cbn [run].
  destruct (net ep me d) as [e | r]; [reflexivity|].
  specialize (Hk r). destruct (run net (k r)) as [calls o].
  cbn [fst] in *. rewrite Hk. reflexivity.
Qed.

Lemma one_request_intro {T A} (p : prog T A) ep me d :
  (forall net, requests net p = [] \/ requests net p = [mkCall ep me d]) ->
  one_request_at_most p ep me (supplied d).
Proof.
  intros H net c Hin. destruct (H net) as [E | E]; rewrite E in Hin |- *.
  - contradiction.
  - destruct Hin as [<- | []]. repeat split.
Qed.

Lemma one_request_sends {T A} (p : prog T A) ep me b :
  (forall net c, In c (requests net p) ->
                 requests net p = [c] /\ c = mkCall ep me (Some b)) ->
  one_request_at_most p ep me true.
Proof.
  intros H net c Hin. destruct (H net c Hin) as [E ->]. repeat split.
  exact E.
Qed.

Lemma requests_after_catalog {A} (net : network DataPlansResponse.t)
      (f : DataPlansResponse.t -> prog DataPlansResponse.t A) :
  (forall r, requests net (f r) = []) ->
  requests net (bind getDataPlans f) = [plans_call].
Proof.
  intros Hf. unfold getDataPlans. cbn [bind].
  apply requests_makeRequest. intros r. apply Hf.
Qed.

Lemma requests_findDataPlan (net : network DataPlansResponse.t) code :
  requests net (findDataPlan code) = [plans_call].
Proof.
  unfold findDataPlan. apply requests_after_catalog. intros r.
  destruct (truthy (DataPlansResponse.success r)
            && truthy (DataPlansResponse.data r)); [|reflexivity].
  destruct (DataPlansResponse.data r); reflexivity.
Qed.

(** X9: no operation repeats a request: whatever the network answers, each
    of the eight operations calls makeRequest at most once, always on its
    own endpoint and with its own method; the three purchases send a body,
    the reads send none.  getDataPlanPrice, which goes through findDataPlan
    and getDataPlans, fetches the catalog once. *)
Theorem operations_make_one_request
        (pa : AirtimePurchaseParams.t) (pd : DataPurchaseParams.t)
        (pw : DataWalletVendParams.t)
        (networkOperator packageCode : jsstring)
        (priceType : option jsstring) :
  one_request_at_most (purchaseAirtime pa) "/airtime" "POST" true
  /\ one_request_at_most (purchaseData pd) "/data" "POST" true
  /\ one_request_at_most (vendDataFromWallet pw) "/data/wallet" "POST" true
  /\ one_request_at_most getDataPlans "/data/plans" "GET" false
  /\ one_request_at_most getWalletBalance "/balance" "GET" false
  /\ one_request_at_most (getDataPlansByOperator networkOperator)
       "/data/plans" "GET" false
  /\ one_request_at_most (findDataPlan packageCode) "/data/plans" "GET" false
  /\ one_request_at_most (getDataPlanPrice packageCode priceType)
       "/data/plans" "GET" false.
Proof.
  repeat apply conj.
  - eapply one_request_sends. intros net c Hin.
    apply (purchaseAirtime_sends pa net c Hin).
  - eapply one_request_sends. intros net c Hin.
    apply (purchaseData_sends pd net c Hin).
  - eapply one_request_sends. intros net c Hin.
    apply (vendDataFromWallet_sends pw net c Hin).
  - apply (@one_request_intro _ _ getDataPlans "/data/plans" "GET" None).
    intros net. right. apply requests_single.
  - apply (@one_request_intro _ _ getWalletBalance "/balance" "GET" None).
    intros net. right. apply requests_single.
  - apply (@one_request_intro _ _ _ "/data/plans" "GET" None).
    intros net. unfold getDataPlansByOperator.
    destruct (negb (includes operators networkOperator)); [left; reflexivity|].
    right. apply requests_after_catalog. intros r.
    destruct (truthy (DataPlansResponse.success r)
              && truthy (DataPlansResponse.data r)); [|reflexivity].
    destruct (DataPlansResponse.data r); reflexivity.
  - apply (@one_request_intro _ _ _ "/data/plans" "GET" None).
    intros net. right. apply requests_findDataPlan.
  - apply (@one_request_intro _ _ _ "/data/plans" "GET" None).
    intros net. right. unfold getDataPlanPrice, findDataPlan, getDataPlans.
    cbn [bind]. apply requests_makeRequest. intros r.
    destruct (truthy (DataPlansResponse.success (APIResponse.data r))
              && truthy (DataPlansResponse.data (APIResponse.data r)));
      [|reflexivity].
    destruct (DataPlansResponse.data (APIResponse.data r)) as [plans|];
      [|reflexivity].
    cbn [bind]. destruct (or_null _); reflexivity.
Qed.

Lemma operations_make_one_request_witness :
  requests sample_network (getDataPlanPrice (js "MTN-1GB") None)
  = [plans_call].
Proof.
  destruct (operations_make_one_request (airtime_params "mtn" 100)
              (data_params None None) (vend_params None None None)
              (js "mtn") (js "MTN-1GB") None)
    as (_ & _ & _ & _ & _ & _ & _ & H).
  destruct (H sample_network plans_call) as (E & _);
    [left; reflexivity | exact E].
Defined.

(** X10: the operations that return a response hand on what the transport
    gives them and nothing else: each of purchaseAirtime, purchaseData,
    vendDataFromWallet, getDataPlans and getWalletBalance either fails
    validation, or makes one request and resolves to the data of the
    response whatever the status code and whatever the envelope says, and
    is rejected with the very error of the transport when the request
    fails. *)
Theorem operations_relay_transport
        (pa : AirtimePurchaseParams.t) (pd : DataPurchaseParams.t)
        (pw : DataWalletVendParams.t) :
  relays (purchaseAirtime pa)
  /\ relays (purchaseData pd)
  /\ relays (vendDataFromWallet pw)
  /\ relays getDataPlans
  /\ relays getWalletBalance.
Proof.
  assert (Hsingle : forall T ep me d,
            relays (@makeRequest T T ep me d
                      (fun r => Return (APIResponse.data r)))).
  { intros T ep me d. right. exists (mkCall ep me d). intros net.
    cbn [run endpoint method body]. destruct (net ep me d); reflexivity. }
  repeat apply conj.
  - destruct (purchaseAirtime_cases pa)
      as [[(msg & _ & H) _] | (_ & _ & _ & _ & _ & _ & _ & E)].
    + left. exists msg. exact H.
    + rewrite E. apply Hsingle.
  - destruct (purchaseData_cases pd)
      as [(_ & E) | [(_ & _ & _ & E) | (_ & _ & b & E & _)]];
      rewrite E; [left; eexists; apply throws_Throw ..| apply Hsingle].
  - destruct (vendDataFromWallet_cases pw)
      as [(_ & E) | [(_ & _ & _ & E) | [(_ & _ & _ & _ & E)
          | (_ & _ & _ & b & E & _)]]];
      rewrite E; [left; eexists; apply throws_Throw ..| apply Hsingle].
  - apply Hsingle.
  - apply Hsingle.
Qed.

Lemma operations_relay_transport_witness :
  let failed : AirtimeResponse.t :=
    AirtimeResponse.mk false (js "error") (js "Insufficient balance") None in
  let server_error : network AirtimeResponse.t :=
    fun _ _ _ => inr (APIResponse.mk 500%Z failed) in
  snd (run server_error (purchaseAirtime (airtime_params "mtn" 100)))
  = Resolved failed
  /\ snd (run (offline _) (purchaseAirtime (airtime_params "mtn" 100)))
     = Rejected (mkError "Request timeout").
Proof.
  intros failed server_error.
  destruct (operations_relay_transport (airtime_params "mtn" 100)
              (data_params None None) (vend_params None None None))
    as ([(msg & E & _) | (c & Hrun)] & _).
  - discriminate E.
  - pose proof (Hrun server_error) as H1. pose proof (Hrun (offline _)) as H2.
    rewrite H1, H2. split; reflexivity.
Defined.

(* ================================================================= *)
(** * Further properties of the catalog operations *)

(** X11: the catalog operations do not absorb a failed request: when the
    request for the plans fails, getDataPlansByOperator, findDataPlan and
    getDataPlanPrice are all rejected with the error of the transport,
    after that one request; the empty list and null stand for an envelope
    that was received, not for a failure. *)
Theorem catalog_operations_propagate_failure
        (net : network DataPlansResponse.t) (e : Error)
        (networkOperator packageCode : jsstring)
        (priceType : option jsstring) :
  net "/data/plans" "GET" None = inl e ->
  In networkOperator operators ->
  run net (getDataPlansByOperator networkOperator)
  = ([plans_call], Rejected e)
  /\ run net (findDataPlan packageCode) = ([plans_call], Rejected e)
  /\ run net (getDataPlanPrice packageCode priceType)
     = ([plans_call], Rejected e).
Proof.
  intros Hnet Hop. apply includes_In in Hop.
  unfold getDataPlansByOperator, getDataPlanPrice, findDataPlan, getDataPlans.
  rewrite Hop. cbn [negb bind run]. rewrite Hnet. repeat split.
Qed.

Lemma catalog_operations_propagate_failure_witness :
  run (offline _) (getDataPlansByOperator (js "mtn"))
  = ([plans_call], Rejected (mkError "Request timeout"))
  /\ run (offline _) (findDataPlan (js "MTN-1GB"))
     = ([plans_call], Rejected (mkError "Request timeout"))
  /\ run (offline _) (getDataPlanPrice (js "MTN-1GB") None)
     = ([plans_call], Rejected (mkError "Request timeout")).
Proof.
  apply (@catalog_operations_propagate_failure (offline _)
           (mkError "Request timeout") (js "mtn") (js "MTN-1GB") None);
    [reflexivity | simpl; auto].
Defined.

(** X12: getDataPlansByOperator checks its argument before it fetches: for
    an argument that is not exactly one of mtn, airtel, glo, 9mobile it
    throws the invalid-operator error and makes no request, even when the
    catalog holds plans under that name; for one of the four it always
    fetches the catalog. *)
Theorem getDataPlansByOperator_checks_operator (networkOperator : jsstring) :
  (~ In networkOperator operators ->
   throws (getDataPlansByOperator networkOperator)
     "Invalid network operator. Must be one of: mtn, airtel, glo, 9mobile")
  /\ (In networkOperator operators ->
      forall net, requests net (getDataPlansByOperator networkOperator)
                  = [plans_call]).
Proof.
  split; intros Hop.
  - apply includes_not_In in Hop. unfold getDataPlansByOperator.
    rewrite Hop. apply throws_Throw.
  - intros net.
    apply includes_In in Hop. unfold getDataPlansByOperator.
    rewrite Hop. cbn [negb]. apply requests_after_catalog. intros r.
    destruct (truthy (DataPlansResponse.success r)
              && truthy (DataPlansResponse.data r)); [|reflexivity].
    destruct (DataPlansResponse.data r); reflexivity.
Qed.

Lemma getDataPlansByOperator_checks_operator_witness :
  run sample_network (getDataPlansByOperator (js "MTN"))
  = ([], Rejected (mkError
       "Invalid network operator. Must be one of: mtn, airtel, glo, 9mobile"))
  /\ requests (offline _) (getDataPlansByOperator (js "airtel"))
     = [plans_call].
Proof.
  split.
  - apply (getDataPlansByOperator_checks_operator (js "MTN")).
    apply includes_not_In. reflexivity.
  - apply (getDataPlansByOperator_checks_operator (js "airtel")).
    simpl; auto.
Defined.

Lemma run_getDataPlansByOperator (net : network DataPlansResponse.t)
      response (op : jsstring) :
  fetches net response -> In op operators ->
  run net (getDataPlansByOperator op)
  = ([plans_call],
     Resolved
       match catalog response with
       | Some plans =>
           filter (fun plan => jsstring_eqb (DataPlan.network_operator plan) op)
                  plans
       | None => []
       end).
Proof.
  intros Hnet Hop. apply includes_In in Hop. unfold getDataPlansByOperator.
  rewrite Hop. cbn [negb]. rewrite (run_getDataPlans _ Hnet).
  rewrite truthy_catalog. unfold catalog.
  destruct (DataPlansResponse.success response),
           (DataPlansResponse.data response); reflexivity.
Qed.

(** X13: the two ways of looking a plan up agree: when findDataPlan returns
    a plan and the operator of that plan is one of the four, the list that
    getDataPlansByOperator returns for that operator, from the same
    catalog, contains the plan; and every plan of that list carries the
    operator asked for and comes from the catalog. *)
Theorem found_plan_is_listed
        (net : network DataPlansResponse.t) (response : DataPlansResponse.t)
        (packageCode : jsstring) (plan : DataPlan.t) :
  fetches net response ->
  snd (run net (findDataPlan packageCode)) = Resolved (Some plan) ->
  In (DataPlan.network_operator plan) operators ->
  exists plans data,
    snd (run net (getDataPlansByOperator (DataPlan.network_operator plan)))
    = Resolved plans
    /\ In plan plans
    /\ DataPlansResponse.data response = Some data
    /\ forall q, In q plans ->
         In q data
         /\ DataPlan.network_operator q = DataPlan.network_operator plan.
Proof.
  intros Hnet Hfound Hop.
  rewrite (run_findDataPlan _ Hnet) in Hfound.
  rewrite (@run_getDataPlansByOperator net response _ Hnet Hop).
  cbn [snd] in *. unfold catalog in *.
  destruct (DataPlansResponse.success response); [|discriminate].
  destruct (DataPlansResponse.data response) as [data|]; [|discriminate].
  injection Hfound as Hfound. apply find_some in Hfound.
  destruct Hfound as [Hin _].
  eexists. exists data. split; [reflexivity|]. repeat split.
  - apply filter_In. split; [exact Hin | apply jsstring_eqb_refl].
  - apply filter_In in H. apply H.
  - apply filter_In in H. apply jsstring_eqb_eq. apply H.
Qed.

Lemma found_plan_is_listed_witness :
  exists plans,
    snd (run sample_network (getDataPlansByOperator (js "glo")))
    = Resolved plans
    /\ In plan_glo_free plans.
Proof.
  destruct (@found_plan_is_listed sample_network sample_response
              (js "GLO-FREE") plan_glo_free sample_network_fetches eq_refl)
    as (plans & data & Hrun & Hin & _).
  - simpl; auto.
  - exists plans. split; assumption.
Defined.

Lemma price_property_tier (plan : DataPlan.t) (priceType : jsstring)
      (n : number) :
  DataPlan.price_property plan (priceType ++ js "_price") = Some n ->
  exists tier, priceType = tier_name tier /\ n = tier_price tier plan.
Proof.
  unfold DataPlan.price_property.
  change (js "regular_price") with (js "regular" ++ js "_price").
  change (js "agent_price") with (js "agent" ++ js "_price").
  change (js "dealer_price") with (js "dealer" ++ js "_price").
  destruct (jsstring_eqb _ (js "regular" ++ _)) eqn:E1.
  { apply jsstring_eqb_eq, app_inv_tail in E1. intros H. injection H as <-.
    exists regular. auto. }
  destruct (jsstring_eqb _ (js "agent" ++ _)) eqn:E2.
  { apply jsstring_eqb_eq, app_inv_tail in E2. intros H. injection H as <-.
    exists agent. auto. }
  destruct (jsstring_eqb _ (js "dealer" ++ _)) eqn:E3.
  { apply jsstring_eqb_eq, app_inv_tail in E3. intros H. injection H as <-.
    exists dealer. auto. }
  discriminate.
Qed.

(** X14: a price that getDataPlanPrice returns is always a real one: for
    every priceType string, a result other than null is a truthy number
    (never 0, never NaN), the priceType is one of regular, agent, dealer,
    and the number is that tier's price of the plan findDataPlan returns.
    So a priceType outside the three gives null for every plan (a plan
    being an object with the declared properties). *)
Theorem getDataPlanPrice_returns_tier_price
        (net : network DataPlansResponse.t) (response : DataPlansResponse.t)
        (packageCode priceType : jsstring) (n : number) :
  fetches net response ->
  snd (run net (getDataPlanPrice packageCode (Some priceType)))
  = Resolved (Some n) ->
  truthy n = true
  /\ exists tier plan,
       priceType = tier_name tier
       /\ snd (run net (findDataPlan packageCode)) = Resolved (Some plan)
       /\ n = tier_price tier plan.
Proof.
  intros Hnet Hprice. rewrite (run_findDataPlan _ Hnet). cbn [snd].
  unfold getDataPlanPrice, findDataPlan in Hprice.
  unfold getDataPlans in Hprice. cbn [bind run] in Hprice.
  destruct Hnet as [st E]. rewrite E in Hprice. cbn [APIResponse.data] in Hprice.
  rewrite truthy_catalog in Hprice. unfold catalog in *.
  destruct (DataPlansResponse.success response); [|discriminate].
  destruct (DataPlansResponse.data response) as [data|]; [|discriminate].
  cbn [supplied bind run] in Hprice.
  destruct (find _ data) as [plan|] eqn:Efind;
    cbn [bind run snd or_null truthy ToBoolean_DataPlan] in Hprice;
    [|discriminate Hprice].
  injection Hprice as Hprice. unfold or_null in Hprice.
  destruct (DataPlan.price_property plan (priceType ++ js "_price"))
    as [m|] eqn:Ep; [|discriminate].
  destruct (truthy m) eqn:Em; [|discriminate].
  injection Hprice as <-. split; [exact Em|].
  destruct (price_property_tier _ _ Ep) as (tier & -> & ->).
  exists tier, plan. auto.
Qed.

Lemma getDataPlanPrice_returns_tier_price_witness :
  exists tier plan,
    js "agent" = tier_name tier
    /\ snd (run sample_network (findDataPlan (js "MTN-2GB")))
       = Resolved (Some plan)
    /\ Finite 540 = tier_price tier plan.
Proof.
  apply (@getDataPlanPrice_returns_tier_price sample_network sample_response
           (js "MTN-2GB") (js "agent") (Finite 540)
           sample_network_fetches eq_refl).
Defined.

Example getDataPlanPrice_unknown_tier :
  run sample_network (getDataPlanPrice (js "MTN-1GB") (Some (js "vip")))
  = ([plans_call], Resolved None).
Proof. reflexivity. Qed.

(* ================================================================= *)
(** * The constructor *)

Lemma or_default_truthy {A} `{ToBoolean A} (o : option A) (d : A) :
  truthy d = true -> truthy (or_default o d) = true.
Proof.
  intros Hd. destruct o as [a|]; cbn [or_default]; [|exact Hd].
  destruct (truthy a) eqn:E; assumption.
Qed.

(** X15: the constructor refuses exactly the missing and the empty token,
    with "API token is required"; any other token is stored unchanged, and
    the client then always has a non-empty base URL and a timeout that is
    neither 0 nor NaN. *)
Theorem constructor_token (apiToken : option jsstring)
        (options : option AirtimeNigeriaOptions.t) :
  (non_empty apiToken ->
   exists this token,
     constructor apiToken options = inr this
     /\ apiToken = Some token
     /\ Client.apiToken this = token
     /\ Client.baseURL this <> []
     /\ truthy (Client.timeout this) = true)
  /\ (~ non_empty apiToken ->
      constructor apiToken options = inl (mkError "API token is required")).
Proof.
  split.
  - intros (token & -> & Hne). unfold constructor.
    destruct token as [|c token]; [contradiction Hne; reflexivity|].
    change (truthy (c :: token)) with true. cbn [negb].
    eexists. exists (c :: token).
    repeat split; cbn [Client.baseURL Client.timeout].
    + intros E.
      assert (Ht : truthy (or_default
                     (AirtimeNigeriaOptions.baseURL
                        match options with
                        | Some o => o
                        | None => AirtimeNigeriaOptions.mk None None
                        end) defaultBaseURL) = true)
        by (apply or_default_truthy; reflexivity).
      rewrite E in Ht. discriminate Ht.
    + apply or_default_truthy. reflexivity.
  - intros Hno. unfold constructor. destruct apiToken as [token|];
      [|reflexivity].
    destruct (truthy token) eqn:E; [|reflexivity].
    exfalso. apply Hno. apply truthy_non_empty. exact E.
Qed.

Lemma constructor_token_witness :
  (exists this,
     constructor (Some (js "secret")) None = inr this
     /\ Client.apiToken this = js "secret")
  /\ constructor (Some []) None = inl (mkError "API token is required").
Proof.
  split.
  - destruct (constructor_token (Some (js "secret")) None) as [Hok _].
    destruct Hok as (this & token & E & Et & Htok & _).
    + exists (js "secret"). split; [reflexivity | discriminate].
    + exists this. injection Et as <-. auto.
  - apply (constructor_token (Some []) None).
    intros (s & E & Hs). injection E as <-. apply Hs. reflexivity.
Defined.

(** X16: the options of the constructor fall back on the defaults by
    truthiness: the base URL is the one given unless it is missing or
    empty, and is then the public endpoint; the timeout is the one given
    unless it is missing, 0 or NaN, and is then 30000.  A timeout of 0
    cannot be configured; a negative or infinite one is kept. *)
Theorem constructor_defaults (token : jsstring)
        (options : option AirtimeNigeriaOptions.t) :
  token <> [] ->
  let given := match options with
               | Some o => o
               | None => AirtimeNigeriaOptions.mk None None
               end in
  exists this,
    constructor (Some token) options = inr this
    /\ (forall url, AirtimeNigeriaOptions.baseURL given = Some url ->
          url <> [] -> Client.baseURL this = url)
    /\ (~ non_empty (AirtimeNigeriaOptions.baseURL given) ->
        Client.baseURL this = defaultBaseURL)
    /\ (forall t, AirtimeNigeriaOptions.timeout given = Some t ->
          truthy t = true -> Client.timeout this = t)
    /\ (truthy (AirtimeNigeriaOptions.timeout given) = false ->
        Client.timeout this = Finite 30000).
Proof.
  intros Hne given. unfold constructor. fold given.
  destruct token as [|c token]; [contradiction Hne; reflexivity|].
  change (truthy (c :: token)) with true. cbn [negb].
  eexists. split; [reflexivity|].
  cbn [Client.baseURL Client.timeout]. repeat split.
  - intros url -> Hurl. cbn [or_default].
    destruct url; [contradiction Hurl; reflexivity | reflexivity].
  - intros Hno. destruct (AirtimeNigeriaOptions.baseURL given) as [url|];
      [|reflexivity].
    cbn [or_default]. destruct (truthy url) eqn:E; [|reflexivity].
    exfalso. apply Hno. apply truthy_non_empty. exact E.
  - intros t -> Ht. cbn [or_default]. rewrite Ht. reflexivity.
  - intros Hf. destruct (AirtimeNigeriaOptions.timeout given) as [t|];
      [|reflexivity].
    cbn [or_default]. change (truthy (Some t)) with (truthy t) in Hf.
    rewrite Hf. reflexivity.
Qed.

Lemma constructor_defaults_witness :
  exists this,
    constructor (Some (js "secret"))
      (Some (AirtimeNigeriaOptions.mk (Some []) (Some (Finite 0))))
    = inr this
    /\ Client.baseURL this = defaultBaseURL
    /\ Client.timeout this = Finite 30000.
Proof.
  destruct (@constructor_defaults (js "secret")
              (Some (AirtimeNigeriaOptions.mk (Some []) (Some (Finite 0)))))
    as (this & E & _ & Hurl & _ & Htime); [discriminate|].
  exists this. repeat split.
  - exact E.
  - apply Hurl. intros (s & Es & Hs). injection Es as <-. apply Hs.
    reflexivity.
  - apply Htime. reflexivity.
Defined.

(* ================================================================= *)
(** * Inside makeRequest *)

Lemma byteLength_bounds_upto (n : nat) (s : jsstring) :
  (List.length s <= n)%nat ->
  (N.of_nat (List.length s) <= byteLength s
   /\ byteLength s <= 3 * N.of_nat (List.length s))%N.
Proof.
  revert s; induction n as [|n IH]; intros s Hlen.
  - destruct s; [cbn; lia | simpl in Hlen; lia].
  - destruct s as [|c s]; [cbn; lia|].
    cbn [List.length] in Hlen.
    assert (Hs : (List.length s <= n)%nat) by lia.
    pose proof (IH s Hs) as [H1 H2].
    cbn [byteLength List.length].
    destruct (c <? 128)%N; [lia|].
    destruct (c <? 2048)%N; [lia|].
    destruct (is_high_surrogate c); [|lia].
    destruct s as [|d s']; [cbn; lia|].
    destruct (is_low_surrogate d); [|lia].
    cbn [List.length] in *.
    assert (Hs' : (List.length s' <= n)%nat) by lia.
    pose proof (IH s' Hs') as [H3 H4]. lia.
Qed.

Lemma byteLength_bounds (s : jsstring) :
  (N.of_nat (List.length s) <= byteLength s
   /\ byteLength s <= 3 * N.of_nat (List.length s))%N.
Proof. apply (@byteLength_bounds_upto (List.length s) s). lia. Qed.

Lemma byteLength_ascii (s : jsstring) :
  Forall (fun c => (c < 128)%N) s ->
  byteLength s = N.of_nat (List.length s).
Proof.
  induction 1 as [|c s Hc Hs IH]; [reflexivity|].
  cbn [byteLength List.length]. apply N.ltb_lt in Hc. rewrite Hc, IH. lia.
Qed.

(** X17: the request that makeRequest writes is consistent: the
    Content-Length header is there exactly when a body is written, which is
    exactly when data is given and serializes to a non-empty string; the
    header then holds the length of the body in UTF-8 bytes, which is the
    number of characters for an ASCII body and between one and three times
    that number in general; the bearer token is always sent.  The https
    client serves exactly the protocol "https:", and a URL without a port
    gets 443 there and 80 otherwise. *)
Theorem build_request_consistent
        (stringify : object -> jsstring) (this : Client.t) (url : URL.t)
        (method : string) (data : option object) :
  let out := build_request stringify this url method data in
  let headers := RequestOptions.headers (options out) in
  get headers "Authorization"
  = Some (JString (js "Bearer " ++ Client.apiToken this))
  /\ (written out = None <-> get headers "Content-Length" = None)
  /\ (written out = None
      <-> data = None \/ exists o, data = Some o /\ stringify o = [])
  /\ (forall s, written out = Some s ->
        (exists o, data = Some o /\ s = stringify o)
        /\ get headers "Content-Length"
           = Some (JNumber (Finite (inject_Z (Z.of_N (byteLength s)))))
        /\ (N.of_nat (List.length s) <= byteLength s
            <= 3 * N.of_nat (List.length s))%N
        /\ (Forall (fun c => (c < 128)%N) s ->
            byteLength s = N.of_nat (List.length s)))
  /\ (isHttps out = true <-> URL.protocol url = js "https:")
  /\ (URL.port url <> [] ->
      RequestOptions.port (options out) = JString (URL.port url))
  /\ (URL.port url = [] ->
      RequestOptions.port (options out)
      = JNumber (Finite (if isHttps out then 443 else 80))).
Proof.
  cbv zeta. unfold build_request.
  cbn [options written isHttps RequestOptions.headers RequestOptions.port].
  split; [reflexivity|].
  assert (Hcl : forall c v,
            get ([("Authorization",
                   JString (js "Bearer " ++ Client.apiToken this));
                  ("Accept", JString (js "application/json"));
                  ("Content-Type", JString (js "application/json"))]
                 ++ spread_if c [("Content-Length", v)]) "Content-Length"
            = if c then Some v else None).
  { intros c v. destruct c; reflexivity. }
  rewrite Hcl.
  assert (Hroute :
    (jsstring_eqb (URL.protocol url) (js "https:") = true
     <-> URL.protocol url = js "https:")
    /\ (URL.port url <> [] ->
        (if truthy (URL.port url) then JString (URL.port url)
         else if jsstring_eqb (URL.protocol url) (js "https:")
              then JNumber (Finite 443) else JNumber (Finite 80))
        = JString (URL.port url))
    /\ (URL.port url = [] ->
        (if truthy (URL.port url) then JString (URL.port url)
         else if jsstring_eqb (URL.protocol url) (js "https:")
              then JNumber (Finite 443) else JNumber (Finite 80))
        = JNumber (Finite (if jsstring_eqb (URL.protocol url) (js "https:")
                           then 443 else 80)))).
  { split; [apply jsstring_eqb_eq|]. split.
    - intros Hp. destruct (URL.port url); [contradiction Hp|]; reflexivity.
    - intros ->. destruct (jsstring_eqb _ _); reflexivity. }
  destruct data as [o|].
  - change (truthy (Some (stringify o))) with (truthy (stringify o)).
    destruct (stringify o) as [|c s] eqn:Es;
      cbn [truthy ToBoolean_string].
    + split; [tauto|]. split; [|split; [discriminate | exact Hroute]].
      split; [eauto | reflexivity].
    + split; [split; discriminate|].
      split; [|split; [|exact Hroute]].
      * split; [discriminate|].
        intros [H | (o' & Eo & H)]; [discriminate|].
        injection Eo as <-. rewrite Es in H. discriminate.
      * intros s' E. injection E as <-.
        split; [exists o; auto|]. split; [reflexivity|].
        split; [apply byteLength_bounds | apply byteLength_ascii].
  - split; [tauto|]. split; [|split; [discriminate | exact Hroute]].
    split; [auto | reflexivity].
Qed.

Lemma build_request_consistent_witness :
  let this := Client.mk (js "secret") defaultBaseURL (Finite 30000) in
  let url := URL.mk (js "https:") (js "www.airtimenigeria.com") []
               (js "/airtime") [] in
  let out := build_request stringify_empty this url "POST"
               (Some [("phone", JString (js "08012345678"))]) in
  written out = Some (js "{}")
  /\ get (RequestOptions.headers (options out)) "Content-Length"
     = Some (JNumber (Finite 2))
  /\ RequestOptions.port (options out) = JNumber (Finite 443).
Proof.
  intros this url out.
  destruct (build_request_consistent stringify_empty this url "POST"
              (Some [("phone", JString (js "08012345678"))]))
    as (_ & _ & _ & Hbody & _ & _ & Hport).
  split; [reflexivity|]. split.
  - destruct (Hbody (js "{}") eq_refl) as (_ & Hlen & _). exact Hlen.
  - apply Hport. reflexivity.
Defined.

Lemma handle_settled {T} (parse : jsstring -> string + T)
      (x : exchange T) (ev : event) o :
  promise x = Some o -> promise (handle parse x ev) = Some o.
Proof.
  intros Hx. destruct ev as [sc | chunk | | msg |]; cbn [handle].
  - exact Hx.
  - destruct (response x) as [[sc d]|]; exact Hx.
  - destruct (response x) as [[sc d]|]; [|exact Hx].
    destruct (parse d); unfold settle_with; rewrite Hx; exact Hx.
  - unfold settle_with. rewrite Hx. exact Hx.
  - unfold settle_with. rewrite Hx. exact Hx.
Qed.

Lemma fold_handle_settled {T} (parse : jsstring -> string + T)
      (events : list event) (x : exchange T) o :
  promise x = Some o ->
  promise (fold_left (handle parse) events x) = Some o.
Proof.
  revert x; induction events as [|ev events IH]; intros x Hx; [exact Hx|].
  cbn [fold_left]. apply IH. apply handle_settled. exact Hx.
Qed.

(** X18: the promise of makeRequest settles once: after the first event
    that resolves or rejects it, no later event (a late end of the body, an
    error after a timeout, a timeout after the answer) changes the
    outcome. *)
Theorem settlement_is_final {T} (parse : jsstring -> string + T)
        (events more : list event) (o : outcome (APIResponse.t T)) :
  settles parse events = Some o ->
  settles parse (events ++ more) = Some o.
Proof.
  unfold settles, exchange_after. intros H. rewrite fold_left_app.
  apply fold_handle_settled. exact H.
Qed.

Lemma settlement_is_final_witness :
  settles parse_braces
    ([Response (Some 200%Z); RequestTimeout] ++ [Data (js "{}"); End_])
  = Some (Rejected (mkError "Request timeout")).
Proof.
  apply (@settlement_is_final nat parse_braces
           [Response (Some 200%Z); RequestTimeout] [Data (js "{}"); End_]).
  reflexivity.
Defined.

Lemma fold_handle_data {T} (parse : jsstring -> string + T)
      (chunks : list jsstring) statusCode (received : jsstring) :
  fold_left (handle parse) (map Data chunks)
    (mkExchange (Some (statusCode, received)) None)
  = mkExchange (Some (statusCode, received ++ List.concat chunks)) None.
Proof.
  revert received; induction chunks as [|chunk chunks IH]; intros received.
  - cbn. rewrite app_nil_r. reflexivity.
  - cbn [map fold_left handle response promise List.concat].
    rewrite IH, <- app_assoc. reflexivity.
Qed.


Lemma fold_handle_progress {T} (parse : jsstring -> string + T)
      (events : list event) (x : exchange T) :
  forallb is_progress events = true -> promise x = None ->
  promise (fold_left (handle parse) events x) = None.
Proof.
  revert x; induction events as [|ev events IH]; intros x Hev Hx;
    [exact Hx|].
  cbn [forallb] in Hev. apply andb_true_iff in Hev. destruct Hev as [Hp Hev].
  cbn [fold_left]. apply IH; [exact Hev|].
  destruct ev as [sc | chunk | | msg |]; try discriminate Hp; cbn [handle].
  - exact Hx.
  - destruct (response x) as [[sc d]|]; exact Hx.
Qed.

(** X20: until the body ends the promise is pending, however much of the
    response has arrived; a timeout at that point rejects with "Request
    timeout" and a failure of the request with "Request failed: " followed
    by its message, and what arrives afterwards is ignored. *)
Theorem pending_until_the_end {T} (parse : jsstring -> string + T)
        (events more : list event) (message : string) :
  forallb is_progress events = true ->
  settles parse events = None
  /\ settles parse (events ++ RequestTimeout :: more)
     = Some (Rejected (mkError "Request timeout"))
  /\ settles parse (events ++ RequestError message :: more)
     = Some (Rejected (mkError ("Request failed: " ++ message)%string)).
Proof.
  intros Hev.
  assert (Hpending : promise (@exchange_after T parse events) = None).
  { apply fold_handle_progress; [exact Hev | reflexivity]. }
  unfold settles. split; [exact Hpending|].
  unfold exchange_after in *. rewrite !fold_left_app. cbn [fold_left].
  split; apply fold_handle_settled; cbn [handle]; unfold settle_with;
    rewrite Hpending; reflexivity.
Qed.

Lemma pending_until_the_end_witness :
  settles parse_braces [Response (Some 200%Z); Data (js "{}")] = None
  /\ settles parse_braces
       ([Response (Some 200%Z); Data (js "{}")] ++ RequestTimeout :: [End_])
     = Some (Rejected (mkError "Request timeout")).
Proof.
  destruct (@pending_until_the_end nat parse_braces
              [Response (Some 200%Z); Data (js "{}")] [End_] EmptyString
              eq_refl) as (H1 & H2 & _).
  split; assumption.
Defined.

Example response_in_two_chunks :
  settles parse_braces [Response None; Data (js "{"); Data (js "}"); End_]
  = Some (Resolved (APIResponse.mk 200%Z 2%nat)).
Proof. reflexivity. Qed.

(* ================================================================= *)
(** * The caller purchaseAirtimeWithValidation *)

Lemma run_bind_Return {T A} (net : network T) (p : prog T A) :
  run net (bind p Return) = run net p.
Proof.
  induction p as [a | e | ep me d k IH]; cbn [bind run]; try reflexivity.
  destruct (net ep me d) as [e | r]; [reflexivity|].
  rewrite IH. reflexivity.
Qed.

(** What isValidPhone accepts, formatPhone turns into a local number. *)
Lemma formatPhone_valid_local (phone : jsstring) :
  isValidPhone phone = true -> is_local_number (formatPhone phone) = true.
Proof.
  unfold isValidPhone. rewrite test_phoneRegex. intros Hvalid.
  destruct (formatPhone_cases phone)
    as [(E1 & _) | [(E1 & E2 & _) | [(E1 & E2 & E3 & _)
        | (E1 & E2 & E3 & _)]]];
    unfold formatPhone; cbv zeta;
    set (c := replace_whitespace phone) in *;
    rewrite ?E1, ?E2, ?E3 in Hvalid |- *; cbn [andb orb] in Hvalid.
  - destruct (is_local_number c) eqn:El.
    { change (js "+234") with (@cons code_unit 43%N (js "234")) in E1.
      rewrite (@local_number_no_prefix c (js "234") 43%N) in E1;
        [discriminate | apply not_in_789; reflexivity | exact El]. }
    destruct (startsWith c (js "234")) eqn:E2.
    { discriminate (@startsWith_same_head _ _ _ _ _ E1 E2). }
    destruct (startsWith c (js "0")) eqn:E3.
    { discriminate (@startsWith_same_head _ _ _ _ _ E1 E3). }
    cbn [andb orb] in Hvalid. rewrite !orb_false_r in Hvalid. exact Hvalid.
  - destruct (is_local_number c) eqn:El.
    { change (js "234") with (@cons code_unit 50%N (js "34")) in E2.
      rewrite (@local_number_no_prefix c (js "34") 50%N) in E2;
        [discriminate | apply not_in_789; reflexivity | exact El]. }
    destruct (startsWith c (js "0")) eqn:E3.
    { discriminate (@startsWith_same_head _ _ _ _ _ E2 E3). }
    cbn [andb orb] in Hvalid. rewrite !orb_false_r in Hvalid. exact Hvalid.
  - destruct (is_local_number c) eqn:El.
    { change (js "0") with (@cons code_unit 48%N []) in E3.
      rewrite (@local_number_no_prefix c [] 48%N) in E3;
        [discriminate | apply not_in_789; reflexivity | exact El]. }
    rewrite !orb_false_r in Hvalid. exact Hvalid.
  - exact Hvalid.
Qed.

Lemma constructor_accepts (token : option jsstring) :
  non_empty token -> exists this, constructor token None = inr this.
Proof.
  intros (t & -> & Hne). unfold constructor.
  destruct t as [|c t]; [contradiction Hne; reflexivity|].
  eexists. reflexivity.
Qed.

Lemma constructor_refuses (token : option jsstring) :
  ~ non_empty token ->
  constructor token None = inl (mkError "API token is required").
Proof.
  intros Hno. unfold constructor. destruct token as [[|c t]|];
    try reflexivity.
  exfalso. apply Hno. exists (c :: t). split; [reflexivity | discriminate].
Qed.

(** X21: purchaseAirtimeWithValidation fails early and in a fixed order,
    each time before any request: without a token it throws "API token is
    required"; with one, a phone that isValidPhone refuses throws "Invalid
    phone number format"; with a valid phone, an amount below 50 or above
    50000 throws the range error.  The range test lets NaN through, which
    the validation of purchaseAirtime then refuses as a missing amount. *)
Theorem purchaseAirtimeWithValidation_fails_early
        (token : option jsstring) (times_1_1 : number -> jsstring)
        (now networkOperator phone : jsstring) (amount : number) :
  let call := purchaseAirtimeWithValidation token times_1_1 now
                networkOperator phone amount in
  (~ non_empty token -> throws call "API token is required")
  /\ (non_empty token -> isValidPhone phone = false ->
      throws call "Invalid phone number format")
  /\ (non_empty token -> isValidPhone phone = true ->
      number_lt amount (Finite 50) = true
      \/ number_gt amount (Finite 50000) = true ->
      throws call "Amount must be between 50 and 50000 NGN")
  /\ (non_empty token -> isValidPhone phone = true -> amount = NaN ->
      forall net,
        run net call
        = ([], Rejected (mkError
             "networkOperator, phone, amount, and maxAmount are required"))).
Proof.
  cbv zeta. unfold purchaseAirtimeWithValidation. repeat apply conj.
  - intros Hno. rewrite (constructor_refuses Hno). apply throws_Throw.
  - intros Htok Hph. destruct (constructor_accepts Htok) as [this ->].
    rewrite Hph. apply throws_Throw.
  - intros Htok Hph Hrange. destruct (constructor_accepts Htok) as [this ->].
    rewrite Hph. cbn [negb].
    replace (number_lt amount (Finite 50) || number_gt amount (Finite 50000))
      with true; [apply throws_Throw|].
    symmetry. apply orb_true_iff. exact Hrange.
  - intros Htok Hph -> net. destruct (constructor_accepts Htok) as [this ->].
    rewrite Hph. cbn [negb number_lt number_gt orb].
    rewrite run_bind_Return. unfold purchaseAirtime.
    destruct (truthy (Some networkOperator)),
             (truthy (Some (formatPhone phone))); reflexivity.
Qed.

Lemma purchaseAirtimeWithValidation_fails_early_witness :
  throws (purchaseAirtimeWithValidation (Some (js "secret"))
            (fun _ => js "27.5") (js "1700000000000")
            (js "mtn") (js "12345") (Finite 100))
         "Invalid phone number format"
  /\ throws (purchaseAirtimeWithValidation (Some (js "secret"))
               (fun _ => js "27.5") (js "1700000000000")
               (js "mtn") (js "08012345678") (Finite 25))
            "Amount must be between 50 and 50000 NGN".
Proof.
  assert (Htok : non_empty (Some (js "secret"))).
  { exists (js "secret"). split; [reflexivity | discriminate]. }
  split.
  - apply (purchaseAirtimeWithValidation_fails_early (Some (js "secret"))
             (fun _ => js "27.5") (js "1700000000000")
             (js "mtn") (js "12345") (Finite 100));
      [exact Htok | reflexivity].
  - apply (purchaseAirtimeWithValidation_fails_early (Some (js "secret"))
             (fun _ => js "27.5") (js "1700000000000")
             (js "mtn") (js "08012345678") (Finite 25));
      [exact Htok | reflexivity | left; reflexivity].
Defined.

(** X22: what purchaseAirtimeWithValidation sends is normalized: with a
    token, a phone that isValidPhone accepts, an operator among the four
    and an amount from 50 to 50000, it makes exactly one POST to /airtime;
    the phone of the body is the 10-digit local number that formatPhone
    gives, whatever spelling and spacing the caller used, the amount is
    unchanged, the customer reference is "purchase-" followed by the
    time, and no callback URL is sent.  The validation of purchaseAirtime
    cannot fail on such a call. *)
Theorem purchaseAirtimeWithValidation_sends_local_number
        (token : option jsstring) (times_1_1 : number -> jsstring)
        (now networkOperator phone : jsstring) (q : Q) :
  non_empty token ->
  isValidPhone phone = true ->
  In networkOperator operators ->
  (50 <= q)%Q -> (q <= 50000)%Q ->
  times_1_1 (Finite q) <> [] ->
  exists b,
    (forall net,
       requests net
         (purchaseAirtimeWithValidation token times_1_1 now networkOperator
            phone (Finite q))
       = [mkCall "/airtime" "POST" (Some b)])
    /\ get b "phone" = Some (JString (formatPhone phone))
    /\ is_local_number (formatPhone phone) = true
    /\ get b "network_operator" = Some (JString networkOperator)
    /\ get b "amount" = Some (JNumber (Finite q))
    /\ get b "max_amount" = Some (JString (times_1_1 (Finite q)))
    /\ get b "customer_reference" = Some (JString (js "purchase-" ++ now))
    /\ get b "callback_url" = None.
Proof.
  intros Htok Hph Hop Hlo Hhi Hmax.
  pose proof (formatPhone_valid_local phone Hph) as Hlocal.
  set (params := AirtimePurchaseParams.mk (Some networkOperator)
                   (Some (formatPhone phone)) (Some (Finite q))
                   (Some (times_1_1 (Finite q))) None
                   (Some (js "purchase-" ++ now))).
  assert (Hvalid : airtime_valid params).
  { repeat split.
    - exists networkOperator. auto.
    - exists (formatPhone phone). split; [reflexivity|].
      intros E. rewrite E in Hlocal. discriminate Hlocal.
    - exists q. auto.
    - exists (times_1_1 (Finite q)). auto. }
  apply airtime_valid_checks in Hvalid.
  destruct (purchaseAirtime_cases params)
    as [[_ Hno] | (_ & _ & _ & _ & _ & _ & _ & E)]; [contradiction|].
  eexists. split.
  - intros net. unfold purchaseAirtimeWithValidation.
    destruct (constructor_accepts Htok) as [this ->].
    rewrite Hph. cbn [negb].
    apply Qlt_bool_ge in Hlo, Hhi. cbn [number_lt number_gt].
    rewrite Hlo, Hhi. cbn [orb].
    unfold requests. rewrite run_bind_Return. fold params. rewrite E.
    apply (requests_single net "/airtime" "POST" _
             (fun r => APIResponse.data r)).
  - cbn [AirtimePurchaseParams.callbackUrl
         AirtimePurchaseParams.customerReference
         AirtimePurchaseParams.networkOperator AirtimePurchaseParams.phone
         AirtimePurchaseParams.amount AirtimePurchaseParams.maxAmount params].
    repeat split; try exact Hlocal; lookup_field.
Qed.

Lemma purchaseAirtimeWithValidation_sends_local_number_witness :
  exists b,
    requests (offline _)
      (purchaseAirtimeWithValidation (Some (js "secret")) (fun _ => js "110")
         (js "1700000000000") (js "mtn") (js "+234 801 234 5678")
         (Finite 100))
    = [mkCall "/airtime" "POST" (Some b)]
    /\ get b "phone" = Some (JString (js "8012345678")).
Proof.
  destruct (@purchaseAirtimeWithValidation_sends_local_number
              (Some (js "secret")) (fun _ => js "110") (js "1700000000000")
              (js "mtn") (js "+234 801 234 5678") 100)
    as (b & Hreq & Hphone & _).
  - exists (js "secret"). split; [reflexivity | discriminate].
  - reflexivity.
  - simpl; auto.
  - discriminate.
  - discriminate.
  - discriminate.
  - exists b. split; [apply Hreq | exact Hphone].
Defined.

(* ================================================================= *)
(** * Validation of the data purchases *)

Lemma data_valid_checks (phone packageCode : option jsstring)
      (planId : option number) :
  data_valid phone packageCode planId
  <-> truthy phone = true /\ truthy packageCode || truthy planId = true.
Proof.
  unfold data_valid. rewrite <- !truthy_non_empty, orb_true_iff. tauto.
Qed.

Lemma processType_valid_checks (processType : option jsstring) :
  processType_valid processType
  <-> truthy processType = false
      \/ includes_opt processTypes processType = true.
Proof. unfold processType_valid. rewrite includes_opt_In. tauto. Qed.

(** X23: purchaseData and vendDataFromWallet accept exactly the calls that
    name a phone and a plan: a non-empty phone, and a non-empty package
    code or a plan id other than 0 and NaN; vendDataFromWallet asks in
    addition that the process type be missing, empty, queue or instant.
    Such a call makes its one request; every other call is rejected before
    any request, and the phone is what is reported first. *)
Theorem data_validation_is_exact
        (pd : DataPurchaseParams.t) (pw : DataWalletVendParams.t) :
  let valid_d := data_valid (DataPurchaseParams.phone pd)
                   (DataPurchaseParams.packageCode pd)
                   (DataPurchaseParams.planId pd) in
  let valid_w := data_valid (DataWalletVendParams.phone pw)
                   (DataWalletVendParams.packageCode pw)
                   (DataWalletVendParams.planId pw)
                 /\ processType_valid (DataWalletVendParams.processType pw) in
  (valid_d -> exists c, forall net, requests net (purchaseData pd) = [c])
  /\ (~ valid_d -> rejects (purchaseData pd))
  /\ (~ non_empty (DataPurchaseParams.phone pd) ->
      throws (purchaseData pd) "phone is required")
  /\ (valid_w ->
      exists c, forall net, requests net (vendDataFromWallet pw) = [c])
  /\ (~ valid_w -> rejects (vendDataFromWallet pw))
  /\ (~ non_empty (DataWalletVendParams.phone pw) ->
      throws (vendDataFromWallet pw) "phone is required").
Proof.
  cbv zeta. rewrite !data_valid_checks, processType_valid_checks.
  rewrite <- !truthy_non_empty.
  split; [|split; [|split; [|split; [|split]]]].
  - intros (Hph & Hid).
    destruct (purchaseData_cases pd)
      as [(H & _) | [(_ & H1 & H2 & _) | (_ & _ & b & E & _)]].
    + congruence.
    + rewrite H1, H2 in Hid. discriminate.
    + eexists. intros net. rewrite E. apply requests_single.
  - intros Hno.
    destruct (purchaseData_cases pd)
      as [(_ & E) | [(_ & _ & _ & E) | (H1 & H2 & _)]].
    + rewrite E. apply rejects_Throw. simpl; auto 10.
    + rewrite E. apply rejects_Throw. simpl; auto 10.
    + exfalso. apply Hno. split; assumption.
  - intros Hno.
    destruct (purchaseData_cases pd)
      as [(_ & E) | [(H & _) | (H & _)]];
      [rewrite E; apply throws_Throw | contradiction | contradiction].
  - intros ((Hph & Hid) & Hpt).
    destruct (vendDataFromWallet_cases pw)
      as [(H & _) | [(_ & H1 & H2 & _) | [(_ & _ & H1 & H2 & _)
          | (_ & _ & _ & b & E & _)]]].
    + congruence.
    + rewrite H1, H2 in Hid. discriminate.
    + destruct Hpt; congruence.
    + eexists. intros net. rewrite E. apply requests_single.
  - intros Hno.
    destruct (vendDataFromWallet_cases pw)
      as [(_ & E) | [(_ & _ & _ & E) | [(_ & _ & _ & _ & E)
          | (H1 & H2 & H3 & _)]]];
      try (rewrite E; apply rejects_Throw; simpl; auto 10).
    exfalso. apply Hno. auto.
  - intros Hno.
    destruct (vendDataFromWallet_cases pw)
      as [(_ & E) | [(H & _) | [(H & _) | (H & _)]]];
      [rewrite E; apply throws_Throw | contradiction ..].
Qed.

Lemma data_validation_is_exact_witness :
  (exists c,
     forall net,
       requests net (purchaseData (data_params None (Some (Finite 7))))
       = [c])
  /\ rejects (vendDataFromWallet
                (vend_params (Some (js "MTN-1GB")) None (Some (js "later")))).
Proof.
  destruct (data_validation_is_exact
              (data_params None (Some (Finite 7)))
              (vend_params (Some (js "MTN-1GB")) None (Some (js "later"))))
    as (Hd & _ & _ & _ & Hw & _).
  split.
  - apply Hd. split.
    + exists (js "08012345678"). split; [reflexivity | discriminate].
    + right. reflexivity.
  - apply Hw. intros (_ & [H | (t & E & Hin)]).
    + discriminate H.
    + injection E as <-. apply includes_not_In in Hin; [exact Hin|].
      reflexivity.
Defined.
